(** * Orchestration core of the smart travel planner

    A shallow embedding of the LangGraph orchestration of the itinerary
    planner: the graph state, the node deltas and their merge, the router
    ([core/router.py]), the reasoning (validation) node
    ([agents/reasoning.py]) and its helpers, the flight handler
    ([agents/flight_agent.py]), the graph wiring ([core/graph.py]), the
    follow-up tokenizer and resolver ([core/follow_up.py]), the destination
    planner's node, research loop and selection
    ([core/destination_planner.py]) and the session entry points
    ([main.py]).

    Python values are modelled by [pyval]; Python dicts by association lists
    with Python's insertion-ordered semantics; exceptions by the [result]
    monad.  Calls to the language model are black boxes supplied by an
    environment [env]: their outcome (a raised exception, an unparseable
    reply or a parsed value) is all the orchestration code looks at. *)

From Stdlib Require Import String Ascii List Bool Arith ZArith Lia Permutation.
Import ListNotations.
Open Scope string_scope.
Set Warnings "-register-all,-abstract-large-number".

(** ** Python values *)

Inductive pyval : Type :=
| VNone
| VBool (b : bool)
| VInt (z : Z)
| VStr (s : string)
| VList (l : list pyval)
| VDict (d : list (string * pyval)).

Definition dict := list (string * pyval).

(** [d.get(k)]: the value stored under [k]. *)
Fixpoint dget (k : string) (d : dict) : option pyval :=
  match d with
  | [] => None
  | (k', v) :: r => if String.eqb k k' then Some v else dget k r
  end.

(** [d.get(k, default)] *)
Definition dget_or (k : string) (default : pyval) (d : dict) : pyval :=
  match dget k d with Some v => v | None => default end.

(** [k in d] *)
Definition dmem (k : string) (d : dict) : bool :=
  match dget k d with Some _ => true | None => false end.

(** [{**d, k: v}] (and [d[k] = v]): overwrite in place, or append. *)
Fixpoint dset (k : string) (v : pyval) (d : dict) : dict :=
  match d with
  | [] => [(k, v)]
  | (k', v') :: r => if String.eqb k k' then (k', v) :: r else (k', v') :: dset k v r
  end.

(** Python truthiness. *)
Definition truthy (v : pyval) : bool :=
  match v with
  | VNone => false
  | VBool b => b
  | VInt z => negb (Z.eqb z 0)
  | VStr s => negb (String.eqb s "")
  | VList l => match l with [] => false | _ => true end
  | VDict d => match d with [] => false | _ => true end
  end.

(** Integers as Python sees them ([bool] is a subclass of [int]). *)
Definition py_int (v : pyval) : option Z :=
  match v with
  | VInt z => Some z
  | VBool b => Some (if b then 1%Z else 0%Z)
  | _ => None
  end.

(** ** Python strings (ASCII case mapping, as [str.upper]/[str.lower] do on
    ASCII text) *)

Definition ascii_upper (c : ascii) : ascii :=
  let n := nat_of_ascii c in
  if ((97 <=? n) && (n <=? 122))%nat then ascii_of_nat (n - 32) else c.

Definition ascii_lower (c : ascii) : ascii :=
  let n := nat_of_ascii c in
  if ((65 <=? n) && (n <=? 90))%nat then ascii_of_nat (n + 32) else c.

Fixpoint str_map (f : ascii -> ascii) (s : string) : string :=
  match s with
  | EmptyString => EmptyString
  | String c r => String (f c) (str_map f r)
  end.

(** [s.upper()] and [s.lower()] on ASCII text: the model maps the ASCII
    letters only, while Python's Unicode case mapping also changes other
    characters (and can lengthen the string: ['\ufb02'.upper() == 'FL']).  The
    results below that use them are about ASCII strings or about strings
    compared with ASCII constants through the same function. *)
Definition py_upper := str_map ascii_upper.
Definition py_lower := str_map ascii_lower.

Definition is_space (c : ascii) : bool :=
  match nat_of_ascii c with
  | 32 | 9 | 10 | 11 | 12 | 13 => true
  | _ => false
  end.

Fixpoint lstrip (s : string) : string :=
  match s with
  | EmptyString => EmptyString
  | String c r => if is_space c then lstrip r else s
  end.

Fixpoint drop_spaces (l : list ascii) : list ascii :=
  match l with
  | [] => []
  | c :: r => if is_space c then drop_spaces r else l
  end.

Definition rstrip (s : string) : string :=
  string_of_list_ascii (rev (drop_spaces (rev (list_ascii_of_string s)))).

(** [s.strip()] on ASCII whitespace (Python also strips Unicode white space
    such as U+00A0, outside the ASCII strings modelled here). *)
Definition py_strip (s : string) : string := rstrip (lstrip s).

(** [s.startswith(p)] *)
Definition startswith (s p : string) : bool := String.prefix p s.

(** [p in s] on strings *)
Fixpoint str_contains (p s : string) : bool :=
  String.prefix p s ||
  match s with
  | EmptyString => false
  | String _ r => str_contains p r
  end.

Fixpoint digits_aux (fuel n : nat) (acc : string) : string :=
  match fuel with
  | O => acc
  | S f =>
      let acc' := String (ascii_of_nat (48 + n mod 10)%nat) acc in
      if (n <? 10)%nat then acc' else digits_aux f (n / 10)%nat acc'
  end.

(** [str(n)] for a natural number *)
Definition nat_str (n : nat) : string := digits_aux (S n) n "".

Definition Z_str (z : Z) : string :=
  if (z <? 0)%Z then "-" ++ nat_str (Z.to_nat (- z)) else nat_str (Z.to_nat z).

Fixpoint join (sep : string) (l : list string) : string :=
  match l with
  | [] => ""
  | [x] => x
  | x :: r => x ++ sep ++ join sep r
  end.

(** [str(v)] *)
Fixpoint py_str (v : pyval) : string :=
  match v with
  | VNone => "None"
  | VBool true => "True"
  | VBool false => "False"
  | VInt z => Z_str z
  | VStr s => s
  | VList l => "[" ++ join ", " (map py_str l) ++ "]"
  | VDict d => "{" ++ join ", " (map (fun kv => "'" ++ fst kv ++ "': " ++ py_str (snd kv)) d) ++ "}"
  end.

(** ** Exceptions *)

Inductive exc : Type :=
| KeyError (k : string)
| TypeError
| AttributeError
| JSONDecodeError
| ClientError (msg : string)
| GraphRecursionError
| ValueError.

(** [str(e)] *)
Definition exc_str (e : exc) : string :=
  match e with
  | KeyError k => "'" ++ k ++ "'"
  | TypeError => "unsupported operand type"
  | AttributeError => "object has no attribute"
  | JSONDecodeError => "Expecting value"
  | ClientError m => m
  | GraphRecursionError => "Recursion limit reached without hitting a stop condition."
  | ValueError => "Unknown format code 'f' for object of type 'str'"
  end.

Inductive result (A : Type) : Type :=
| Ok (a : A)
| Raise (e : exc).
Arguments Ok {A} a.
Arguments Raise {A} e.

Definition bind {A B : Type} (r : result A) (f : A -> result B) : result B :=
  match r with Ok a => f a | Raise e => Raise e end.

Notation "x <- r ;; k" := (bind r (fun x => k))
  (at level 61, r at next level, right associativity).

(** [try: body except Exception as e: handler(e)] *)
Definition try_except {A : Type} (r : result A) (h : exc -> A) : A :=
  match r with Ok a => a | Raise e => h e end.

(** [iter(v)] over a value used in a [for] loop *)
Definition py_iter (v : pyval) : result (list pyval) :=
  match v with
  | VList l => Ok l
  | VStr s => Ok (map (fun c => VStr (String c EmptyString)) (list_ascii_of_string s))
  | VDict d => Ok (map (fun kv => VStr (fst kv)) d)
  | _ => Raise TypeError
  end.

(** [v.get(...)] needs a dict *)
Definition as_dict (v : pyval) : result dict :=
  match v with VDict d => Ok d | _ => Raise AttributeError end.

Definition nl : string := String (ascii_of_nat 10) EmptyString.

(** ** Messages and the graph state ([core.state.GraphState]) *)

Inductive role : Type := Human | AI.

(** A LangChain message: its type, [content] and [additional_kwargs]. *)
Record message : Type := mkMsg {
  msg_role : role;
  msg_content : string;
  msg_kwargs : dict
}.

Definition AIMessage (c : string) : message := mkMsg AI c [].
Definition HumanMessage (c : string) : message := mkMsg Human c [].

(** The keys of the graph state.  [autonomous_execution] is the optional key
    read by the flight handler; a state built with [GraphState(...)] does
    not carry it ([VNone]). *)
Record state : Type := mkState {
  messages : list message;
  plan : pyval;
  current_itinerary : pyval;
  user_preferences : dict;
  next_agent : pyval;
  tool_results : dict;
  metadata : dict;
  autonomous_execution : pyval
}.

(** [GraphState(messages=..., plan=..., ...)] *)
Definition GraphState (ms : list message) (p it : pyval) (prefs : dict)
  (na : pyval) (tr md : dict) : state :=
  mkState ms p it prefs na tr md VNone.

(** A node's return value: the keys it returns. *)
Record delta : Type := mkDelta {
  d_messages : option (list message);
  d_plan : option pyval;
  d_itinerary : option pyval;
  d_prefs : option dict;
  d_next_agent : option pyval;
  d_tool_results : option dict;
  d_metadata : option dict
}.

Definition upd {A : Type} (o : option A) (a : A) : A :=
  match o with Some x => x | None => a end.

(** The graph runner's merge of a node's return value: every key the node
    returns replaces the state's value for that key (LangGraph's default
    last-value channels; the nodes themselves spread the old dicts into the
    values they return). *)
Definition merge (st : state) (d : delta) : state :=
  mkState (upd d.(d_messages) st.(messages))
          (upd d.(d_plan) st.(plan))
          (upd d.(d_itinerary) st.(current_itinerary))
          (upd d.(d_prefs) st.(user_preferences))
          (upd d.(d_next_agent) st.(next_agent))
          (upd d.(d_tool_results) st.(tool_results))
          (upd d.(d_metadata) st.(metadata))
          st.(autonomous_execution).

(** ** Nodes of the graph and the environment of black boxes *)

Inductive node : Type :=
| NRouter | NDestinationPlanner | NPlanner | NPlannerExecution
| NReasoning | NFlight | NHotel | NActivity | NItinerary.

(** The reply of [llm.invoke(prompt)] read as text ([response.content]). *)
Inductive llm_text : Type :=
| TRaise (msg : string)
| TText (s : string).

(** The reply of [llm.invoke(prompt)] after the code strips code fences and
    calls [json.loads]: the call raised, the text was not valid JSON, or the
    parsed value. *)
Inductive llm_json : Type :=
| JRaise (msg : string)
| JMalformed
| JParsed (v : pyval).

Record env : Type := mkEnv {
  (** [get_config()] and [ChatOpenAI(...)]: [Some msg] when they raise *)
  llm_setup : option string;
  router_llm : state -> llm_text;
  reasoning_llm : state -> llm_json;
  followup_llm : state -> llm_json;
  (** [extract_flight_params] then [execute_flight_search] *)
  flight_search : state -> result pyval;
  (** [format_flight_response] *)
  flight_format : pyval -> string;
  (** [select_best_flight(flight_results["flights"], params)] *)
  flight_select : state -> pyval -> result pyval;
  (** the nodes whose code is outside the orchestration core *)
  handler : node -> state -> result delta
}.

Definition setup (e : env) : result unit :=
  match e.(llm_setup) with None => Ok tt | Some m => Raise (ClientError m) end.

Definition json_outcome (j : llm_json) : result pyval :=
  match j with
  | JRaise m => Raise (ClientError m)
  | JMalformed => Raise JSONDecodeError
  | JParsed v => Ok v
  end.

(** ** The reasoning node ([agents/reasoning.py], [reasoning_node]).
    The [@time_execution()] decorator only times the call.  The prompt
    helpers [_build_reasoning_context] and [_determine_request_type] only
    shape the prompt, so they are part of the black box [reasoning_llm]. *)

Definition MAX_REASONING_ITERATIONS : Z := 2.

(** [metadata.get("reasoning_iterations", 0)] as an integer; [None] when
    the stored value is not a number ([>=] then raises [TypeError]). *)
Definition iterations_of (md : dict) : option Z :=
  match dget "reasoning_iterations" md with
  | None => Some 0%Z
  | Some v => py_int v
  end.

Definition reasoning_bullets (title : string) (r : dict) (k : string)
  : result (list string) :=
  if truthy (dget_or k VNone r) then
    items <- py_iter (dget_or k VNone r) ;;
    Ok (title :: map (fun i => "  - " ++ py_str i) items)
  else Ok [].

Definition reasoning_message (r : dict) : result string :=
  issues <- reasoning_bullets (nl ++ "Issues identified:") r "issues" ;;
  recs <- reasoning_bullets (nl ++ "Recommendations:") r "recommendations" ;;
  Ok (join nl
        (("✓ Validation: " ++
            (if truthy (dget_or "validation_passed" VNone r) then "Passed" else "Issues found"))
         :: app issues (app recs
              [nl ++ "Reasoning: " ++ py_str (dget_or "reasoning" (VStr "") r)]))).

(** The body of the [try] block. *)
Definition reasoning_try (e : env) (st : state) : result delta :=
  let md := st.(metadata) in
  n <- (match iterations_of md with Some n => Ok n | None => Raise TypeError end) ;;
  if (MAX_REASONING_ITERATIONS <=? n)%Z then
    Ok {| d_messages := Some (app st.(messages)
                              [AIMessage "✓ Validation complete. Your itinerary is ready!"]);
          d_plan := None; d_itinerary := None; d_prefs := None;
          d_next_agent := Some (VStr "END");
          d_tool_results := None;
          d_metadata := Some (dset "reasoning_forced_end" (VBool true) md) |}
  else
    _ <- setup e ;;
    v <- json_outcome (e.(reasoning_llm) st) ;;
    r <- as_dict v ;;
    content <- reasoning_message r ;;
    Ok {| d_messages := Some (app st.(messages) [AIMessage content]);
          d_plan := None; d_itinerary := None; d_prefs := None;
          d_next_agent := Some (dget_or "next_action" (VStr "END") r);
          d_tool_results := None;
          d_metadata := Some (dset "reasoning_iterations" (VInt (n + 1))
                                (dset "reasoning_result" v md)) |}.

(** The [except] block. *)
Definition reasoning_failure (st : state) : delta :=
  {| d_messages := Some (app st.(messages) [AIMessage "Reasoning validation complete."]);
     d_plan := None; d_itinerary := None; d_prefs := None;
     d_next_agent := Some (VStr "END");
     d_tool_results := None; d_metadata := None |}.

Definition reasoning_node (e : env) (st : state) : result delta :=
  Ok (try_except (reasoning_try e st) (fun _ => reasoning_failure st)).

(** ** The router ([core/router.py], [router_node]) *)

(** [l[-1]], [None] on an empty list. *)
Fixpoint last_opt {A : Type} (l : list A) : option A :=
  match l with
  | [] => None
  | [x] => Some x
  | _ :: r => last_opt r
  end.

Definition destination_help_phrases : list string :=
  ["don't know where"; "help me choose"; "suggest destination";
   "where should i go"; "recommend a place"; "help me decide";
   "not sure where"; "uncertain about destination"].

Definition valid_agents : list string :=
  ["DESTINATION_PLANNER"; "PLANNER"; "FLIGHT"; "HOTEL"; "ACTIVITY";
   "ITINERARY"; "REASONING"; "END"].

(** [needs_destination_help] in [router_node] *)
Definition needs_destination_help (st : state) (last_message : message) : bool :=
  let destination := dget_or "destination" VNone st.(user_preferences) in
  let message_content := py_lower last_message.(msg_content) in
  (negb (truthy destination)
   && existsb (fun p => str_contains p message_content) destination_help_phrases)
  || truthy (dget_or "preplanner_phase" (VBool false) st.(metadata)).

(** [metadata.get("destination_selected", False)] *)
Definition destination_selected (md : dict) : bool :=
  truthy (dget_or "destination_selected" (VBool false) md).

Definition router_try (e : env) (st : state) : result delta :=
  _ <- setup e ;;
  match last_opt st.(messages) with
  | None =>
      Ok {| d_messages := None; d_plan := None; d_itinerary := None; d_prefs := None;
            d_next_agent := Some (VStr "END"); d_tool_results := None; d_metadata := None |}
  | Some last_message =>
      let needs_help := needs_destination_help st last_message in
      if destination_selected st.(metadata) then
        Ok {| d_messages := Some st.(messages); d_plan := None; d_itinerary := None;
              d_prefs := None; d_next_agent := Some (VStr "PLANNER");
              d_tool_results := None; d_metadata := None |}
      else if needs_help then
        Ok {| d_messages := Some (app st.(messages)
                 [AIMessage "Let me help you find the perfect destination..."]);
              d_plan := None; d_itinerary := None; d_prefs := None;
              d_next_agent := Some (VStr "DESTINATION_PLANNER");
              d_tool_results := None; d_metadata := None |}
      else
        text <- (match e.(router_llm) st with
                 | TRaise m => Raise (ClientError m)
                 | TText s => Ok s
                 end) ;;
        let decision0 := py_upper (py_strip text) in
        let decision :=
          if existsb (String.eqb decision0) valid_agents then decision0 else "PLANNER" in
        Ok {| d_messages := Some (app st.(messages)
                 [mkMsg AI ("Routing to " ++ decision ++ " agent...")
                        [("route_decision", VStr decision)]]);
              d_plan := None; d_itinerary := None; d_prefs := None;
              d_next_agent := Some (VStr decision);
              d_tool_results := None; d_metadata := None |}
  end.

Definition router_failure (st : state) (ex : exc) : delta :=
  {| d_messages := Some (app st.(messages) [AIMessage ("Router error: " ++ exc_str ex)]);
     d_plan := None; d_itinerary := None; d_prefs := None;
     d_next_agent := Some (VStr "END"); d_tool_results := None; d_metadata := None |}.

Definition router_node (e : env) (st : state) : result delta :=
  Ok (try_except (router_try e st) (router_failure st)).

(** ** The flight handler's return value ([agents/flight_agent.py],
    [flight_agent_node]) *)

(** [d[k]] *)
Definition dkey (k : string) (d : dict) : result pyval :=
  match dget k d with Some v => Ok v | None => Raise (KeyError k) end.

(** [v[k]] on a value *)
Definition subscript (v : pyval) (k : string) : result pyval :=
  match v with VDict d => dkey k d | _ => Raise TypeError end.

Definition flight_msg_delta (st : state) (response : string) (tr : dict) : delta :=
  {| d_messages := Some (app st.(messages) [AIMessage response]);
     d_plan := None; d_itinerary := None; d_prefs := None; d_next_agent := None;
     d_tool_results := Some tr; d_metadata := None |}.

(** [f"{v:.2f}"] for the values of [pyval] (an int [n] prints as [n.00]). *)
Definition fmt_2f (v : pyval) : result string :=
  match v with
  | VInt z => Ok (Z_str z ++ ".00")
  | VBool b => Ok (if b then "1.00" else "0.00")
  | VStr _ => Raise ValueError
  | _ => Raise TypeError
  end.

Definition flight_try (e : env) (st : state) : result delta :=
  flight_results <- e.(flight_search) st ;;
  let response := e.(flight_format) flight_results in
  let tr := st.(tool_results) in
  if truthy st.(autonomous_execution) then
    selected_flight <- e.(flight_select) st flight_results ;;
    if truthy selected_flight then
      airline <- subscript selected_flight "airline" ;;
      price <- subscript selected_flight "total_price" ;;
      price_2f <- fmt_2f price ;;
      Ok (flight_msg_delta st
            (response ++ nl ++ nl ++ "Autonomous Selection: Selected flight - "
                      ++ py_str airline ++ " - $" ++ price_2f)
            (dset "selected_flight" selected_flight (dset "flight_search" flight_results tr)))
    else
      Ok (flight_msg_delta st
            (response ++ nl ++ nl ++ "Autonomous Selection: No flight found that meets all criteria.")
            (dset "selected_flight" VNone (dset "flight_search" flight_results tr)))
  else
    Ok (flight_msg_delta st response (dset "flight_search" flight_results tr)).

Definition flight_agent_node (e : env) (st : state) : result delta :=
  Ok (try_except (flight_try e st)
        (fun ex =>
           {| d_messages := Some (app st.(messages)
                                    [AIMessage ("Flight search error: " ++ exc_str ex)]);
              d_plan := None; d_itinerary := None; d_prefs := None; d_next_agent := None;
              d_tool_results := None; d_metadata := None |})).

(** ** The graph ([core/graph.py], [build_graph]) *)

Inductive target : Type :=
| Goto (n : node)
| GEnd.

(** [state.get("next_agent", "").upper()] *)
Definition next_agent_upper (st : state) : result string :=
  match st.(next_agent) with VStr s => Ok (py_upper s) | _ => Raise AttributeError end.

Definition route_after_router (st : state) : result target :=
  a <- next_agent_upper st ;;
  Ok (if String.eqb a "DESTINATION_PLANNER" then Goto NDestinationPlanner
      else if String.eqb a "PLANNER" then Goto NPlanner
      else if String.eqb a "FLIGHT" then Goto NFlight
      else if String.eqb a "HOTEL" then Goto NHotel
      else if String.eqb a "ACTIVITY" then Goto NActivity
      else if String.eqb a "ITINERARY" then Goto NItinerary
      else if String.eqb a "REASONING" then Goto NReasoning
      else GEnd).

Definition route_after_destination_planner (st : state) : result target :=
  Ok (if destination_selected st.(metadata) then Goto NRouter else GEnd).

Definition route_after_planner (st : state) : result target :=
  if truthy st.(plan) then
    p <- as_dict st.(plan) ;;
    Ok (if truthy (dget_or "steps" VNone p) then Goto NPlannerExecution else Goto NReasoning)
  else Ok (Goto NReasoning).

Definition route_after_reasoning (st : state) : result target :=
  a <- next_agent_upper st ;;
  Ok (if negb (String.eqb a "") && negb (String.eqb a "END") then Goto NRouter else GEnd).

(** The conditional edges registered for each node. *)
Definition next_edge (n : node) (st : state) : result target :=
  match n with
  | NRouter => route_after_router st
  | NDestinationPlanner => route_after_destination_planner st
  | NPlanner => route_after_planner st
  | NPlannerExecution => Ok (Goto NReasoning)
  | NFlight | NHotel | NActivity | NItinerary => Ok (Goto NReasoning)
  | NReasoning => route_after_reasoning st
  end.

Definition run_node (e : env) (n : node) (st : state) : result delta :=
  match n with
  | NRouter => router_node e st
  | NReasoning => reasoning_node e st
  | NFlight => flight_agent_node e st
  | _ => e.(handler) n st
  end.

(** [graph.set_entry_point("router")] *)
Definition ENTRY : node := NRouter.

(** LangGraph's run loop: run a node, merge its return value, follow the
    conditional edge; at most [fuel] node executions, after which
    [GraphRecursionError] is raised.  Returns the nodes executed, in order,
    with the final state. *)
Fixpoint run_from (fuel : nat) (e : env) (n : node) (st : state)
  : result (list node * state) :=
  match fuel with
  | O => Raise GraphRecursionError
  | S f =>
      d <- run_node e n st ;;
      let st' := merge st d in
      t <- next_edge n st' ;;
      match t with
      | GEnd => Ok ([n], st')
      | Goto m => p <- run_from f e m st' ;; Ok (n :: fst p, snd p)
      end
  end.

(** [graph.invoke(state, config={"recursion_limit": limit})], with the nodes
    it executed.  LangGraph counts the input step too: a run that executes
    [k] nodes completes under a limit of [k + 1] and raises
    [GraphRecursionError] under [k], so the run has [limit - 1] node
    executions. *)
Definition invoke_trace (limit : nat) (e : env) (st : state) : result (list node * state) :=
  run_from (Nat.pred limit) e ENTRY st.

Definition invoke (limit : nat) (e : env) (st : state) : result state :=
  p <- invoke_trace limit e st ;; Ok (snd p).

(** ** Follow-up suggestions ([core/follow_up.py]) *)

Fixpoint str_replace_fuel (fuel : nat) (pat rep s : string) : string :=
  match fuel with
  | O => s
  | S f =>
      match s with
      | EmptyString => EmptyString
      | String c r =>
          if String.prefix pat s then
            rep ++ str_replace_fuel f pat rep
                     (substring (String.length pat) (String.length s - String.length pat) s)
          else String c (str_replace_fuel f pat rep r)
      end
  end.

(** [s.replace(pat, rep)] for a non-empty [pat] *)
Definition py_replace (pat rep s : string) : string :=
  str_replace_fuel (S (String.length s)) pat rep s.

(** [len(v)] *)
Definition py_len (v : pyval) : result nat :=
  match v with
  | VList l => Ok (length l)
  | VStr s => Ok (String.length s)
  | VDict d => Ok (length d)
  | _ => Raise TypeError
  end.

(** [v == s] for a string [s] *)
Definition py_eq_str (v : pyval) (s : string) : bool :=
  match v with VStr s' => String.eqb s' s | _ => false end.

Definition is_none (v : pyval) : bool :=
  match v with VNone => true | _ => false end.

(** [key in state.get("tool_results", {})] *)
Definition has_result (key : string) (st : state) : bool := dmem key st.(tool_results).

Record action_entry : Type := mkAction {
  ac_agent : string;
  ac_description : string;
  available_when : state -> bool
}.

Definition ACTION_REGISTRY : list (string * action_entry) :=
  [("search_flights",
     mkAction "FLIGHT" "Search for flight options to {destination}"
              (fun st => negb (has_result "flight_search" st)));
   ("review_flights",
     mkAction "FLIGHT" "Review the {count} flight options we found"
              (fun st => has_result "flight_search" st));
   ("search_hotels",
     mkAction "HOTEL" "Find accommodation in {destination}"
              (fun st => negb (has_result "hotel_search" st)));
   ("review_hotels",
     mkAction "HOTEL" "Review the {count} hotel options we found"
              (fun st => has_result "hotel_search" st));
   ("search_activities",
     mkAction "ACTIVITY" "Find activities and attractions in {destination}"
              (fun st => negb (has_result "activity_search" st)));
   ("review_activities",
     mkAction "ACTIVITY" "Review the {count} activity options we found"
              (fun st => has_result "activity_search" st));
   ("modify_itinerary",
     mkAction "ITINERARY" "Modify your {days}-day itinerary"
              (fun st => negb (is_none st.(current_itinerary))));
   ("create_itinerary",
     mkAction "ITINERARY" "Create a day-by-day itinerary from the options we found"
              (fun st => is_none st.(current_itinerary)
                         && existsb (fun k => has_result k st)
                              ["flight_search"; "hotel_search"; "activity_search"]))].

(** An entry of the list returned by [get_available_actions]. *)
Record available_action : Type := mkAvail {
  av_action : string;
  av_agent : string;
  av_description : string
}.

Definition action_count (tr : dict) (action_id : string) : result nat :=
  let count_of key field :=
    (v <- as_dict (dget_or key (VDict []) tr) ;; py_len (dget_or field (VList []) v)) in
  if str_contains "flight" action_id then count_of "flight_search" "flights"
  else if str_contains "hotel" action_id then count_of "hotel_search" "hotels"
  else if str_contains "activity" action_id || str_contains "activities" action_id
  then count_of "activity_search" "activities"
  else Ok 0.

Definition format_description (st : state) (destination : pyval) (action_id template : string)
  : result string :=
  d1 <- (if str_contains "{destination}" template then
           match destination with
           | VStr s => Ok (py_replace "{destination}" s template)
           | _ => Raise TypeError
           end
         else Ok template) ;;
  d2 <- (if str_contains "{count}" d1 then
           c <- action_count st.(tool_results) action_id ;;
           Ok (py_replace "{count}" (nat_str c) d1)
         else Ok d1) ;;
  if str_contains "{days}" d2 then
    let days := match st.(current_itinerary) with
                | VDict it => dget_or "duration_days" (VInt 0) it
                | _ => VInt 0
                end in
    Ok (py_replace "{days}" (py_str days) d2)
  else Ok d2.

Fixpoint collect_available (st : state) (destination : pyval)
  (reg : list (string * action_entry)) : result (list available_action) :=
  match reg with
  | [] => Ok []
  | (action_id, cfg) :: r =>
      if cfg.(available_when) st then
        desc <- format_description st destination action_id cfg.(ac_description) ;;
        rest <- collect_available st destination r ;;
        Ok (mkAvail action_id cfg.(ac_agent) desc :: rest)
      else collect_available st destination r
  end.

Definition get_available_actions (st : state) : result (list available_action) :=
  let destination :=
    match dget_or "s1" (VDict []) st.(tool_results) with
    | VDict prefs => dget_or "destination" (VStr "your destination") prefs
    | _ => VStr "your destination"
    end in
  collect_available st destination ACTION_REGISTRY.

(** The dict returned by the suggestion generators. *)
Record follow_up : Type := mkFollowUp {
  fu_suggestions : list pyval;
  fu_message : message;
  fu_reasoning : pyval
}.

Definition suggestion_lines (sugs : list pyval) : list string :=
  map (fun s => match s with
                | VDict d => "  [" ++ py_str (dget_or "token" VNone d) ++ "] "
                             ++ py_str (dget_or "description" VNone d)
                | _ => ""
                end) sugs.

(** [recommendations[:5]] as iterated by the loop *)
Definition first5 (v : pyval) : result (list pyval) :=
  match v with
  | VList l => Ok (firstn 5 l)
  | VStr s => Ok (firstn 5 (map (fun c => VStr (String c EmptyString)) (list_ascii_of_string s)))
  | _ => Raise TypeError
  end.

Fixpoint destination_tokens (i : nat) (items : list pyval) : result (list pyval) :=
  match items with
  | [] => Ok []
  | dest :: r =>
      d <- as_dict dest ;;
      rest <- destination_tokens (S i) r ;;
      Ok (VDict [("token", VStr ("D" ++ nat_str i));
                 ("action", VStr "select_destination");
                 ("destination", dget_or "destination" VNone d);
                 ("description", VStr ("Choose " ++ py_str (dget_or "destination" VNone d)
                                       ++ ", " ++ py_str (dget_or "country" VNone d)));
                 ("priority", VInt (Z.of_nat i));
                 ("destination_data", dest)] :: rest)
  end.

Definition refine_token : pyval :=
  VDict [("token", VStr "D99"); ("action", VStr "refine_search");
         ("description", VStr "Show different options or refine my search");
         ("priority", VInt 99)].

(** [generate_destination_suggestions]; the message's leading emoji is left
    out of its text. *)
Definition destination_suggestions_try (st : state) : result follow_up :=
  rd <- as_dict (dget_or "destination_recommendations" (VDict []) st.(tool_results)) ;;
  let recs := dget_or "recommendations" (VList []) rd in
  if negb (truthy recs) then
    Ok (mkFollowUp [VDict [("token", VStr "A1"); ("action", VStr "refine_search");
                           ("description", VStr "Refine my destination search");
                           ("priority", VInt 1)]]
                   (AIMessage "What would you like to do next?")
                   (VStr "No recommendations available"))
  else
    items <- first5 recs ;;
    toks <- destination_tokens 1 items ;;
    let all := app toks [refine_token] in
    Ok (mkFollowUp all
          (mkMsg AI (String.concat ""
                       (app ((nl ++ " Ready to plan your trip! Select a destination:" ++ nl)
                             :: suggestion_lines toks)
                            [nl ++ "  [D99] Show different options or refine my search";
                             nl ++ nl ++ "Select an option or tell me more about what you're looking for!"]))
                 [("suggestions", VList all); ("preplanner_phase", VBool true)])
          (VStr "Destination selection phase")).

Definition generate_destination_suggestions (st : state) : follow_up :=
  try_except (destination_suggestions_try st)
    (fun _ => mkFollowUp [] (AIMessage "Which destination interests you?")
                         (VStr "Error in destination suggestion generation")).

(** The loop matching the classifier's suggestions with the available
    actions; [i] is the index given by [enumerate]. *)
Fixpoint tokenize (available : list available_action) (i : nat) (sugs : list pyval)
  : result (list pyval) :=
  match sugs with
  | [] => Ok []
  | s :: r =>
      sd <- as_dict s ;;
      let action_name := dget_or "action" VNone sd in
      match find (fun a => py_eq_str action_name a.(av_action)) available with
      | Some m =>
          rest <- tokenize available (S i) r ;;
          Ok (VDict [("token", VStr ("A" ++ nat_str (S i)));
                     ("action", action_name);
                     ("agent", VStr m.(av_agent));
                     ("description", VStr m.(av_description));
                     ("priority", dget_or "priority" (VInt (Z.of_nat (S i))) sd)] :: rest)
      | None => tokenize available (S i) r
      end
  end.

Definition default_suggestions : list pyval :=
  [VDict [("token", VStr "A1"); ("action", VStr "search_flights");
          ("description", VStr "Search for flight options"); ("priority", VInt 1)];
   VDict [("token", VStr "A2"); ("action", VStr "search_hotels");
          ("description", VStr "Find accommodation"); ("priority", VInt 2)];
   VDict [("token", VStr "A3"); ("action", VStr "modify_itinerary");
          ("description", VStr "Modify the itinerary"); ("priority", VInt 3)]].

(** The body of [generate_follow_up_suggestions]'s [try] block.  The prompt
    helper [_build_follow_up_context] only shapes the prompt and is part of
    the black box [followup_llm]. *)
Definition follow_up_try (e : env) (st : state) : result follow_up :=
  if truthy (dget_or "preplanner_phase" (VBool false) st.(metadata)) then
    Ok (generate_destination_suggestions st)
  else
    _ <- setup e ;;
    available <- get_available_actions st ;;
    match available with
    | [] => Ok (mkFollowUp []
                  (AIMessage "Your itinerary is complete! Feel free to ask me anything else.")
                  (VStr "No further actions available"))
    | _ :: _ =>
        v <- json_outcome (e.(followup_llm) st) ;;
        r <- as_dict v ;;
        sugs <- py_iter (dget_or "suggestions" (VList []) r) ;;
        toks <- tokenize available 0 sugs ;;
        let reasoning := dget_or "reasoning" (VStr "") r in
        Ok (mkFollowUp toks
              (mkMsg AI (String.concat ""
                           (app ((nl ++ " What would you like to do next?" ++ nl)
                                 :: suggestion_lines toks)
                                [nl ++ nl ++ "Select an option or ask me anything!"]))
                     [("suggestions", VList toks); ("reasoning", reasoning)])
              reasoning)
    end.

Definition generate_follow_up_suggestions (e : env) (st : state) : follow_up :=
  try_except (follow_up_try e st)
    (fun _ => mkFollowUp default_suggestions (AIMessage "What would you like to do next?")
                         (VStr "Default suggestions")).

(** ** Resolving a selected token ([handle_user_selection],
    [core/destination_planner.py]'s [handle_destination_selection]) *)

(** The [suggestions] of the newest message whose [additional_kwargs]
    carry that key; [[]] when there is none. *)
Definition last_offered (ms : list message) : pyval :=
  match find (fun m => dmem "suggestions" m.(msg_kwargs)) (rev ms) with
  | Some m => dget_or "suggestions" VNone m.(msg_kwargs)
  | None => VList []
  end.

Fixpoint find_token (token : string) (sugs : list pyval) : result (option pyval) :=
  match sugs with
  | [] => Ok None
  | s :: r =>
      t <- subscript s "token" ;;
      if py_eq_str t token then Ok (Some s) else find_token token r
  end.

(** The loop [for dest in recommendations: if selected_destination.lower()
    in dest.get("destination", "").lower(): ...]; [VNone] when no entry
    matches.  [selected_destination.lower()] is evaluated at each iteration,
    before [dest.get]. *)
Fixpoint find_destination (selected_destination : pyval) (recs : list pyval) : result pyval :=
  match recs with
  | [] => Ok VNone
  | dest :: r =>
      sel_lower <- (match selected_destination with
                    | VStr s => Ok (py_lower s)
                    | _ => Raise AttributeError
                    end) ;;
      d <- as_dict dest ;;
      name <- (match dget_or "destination" (VStr "") d with
               | VStr s => Ok s
               | _ => Raise AttributeError
               end) ;;
      if str_contains sel_lower (py_lower name) then Ok dest
      else find_destination selected_destination r
  end.

(** [{**base, **extra}] *)
Definition spread (base extra : dict) : dict :=
  fold_left (fun acc kv => dset (fst kv) (snd kv) acc) extra base.

(** [handle_destination_selection], with whether the state it returns is
    the [state] object it was given (its final [return state]) rather than a
    new [GraphState]. *)
Definition handle_destination_selection_obj (st : state) (selected_destination : pyval)
  : result (state * bool) :=
  let tr := st.(tool_results) in
  dr <- as_dict (dget_or "destination_recommendations" (VDict []) tr) ;;
  recs <- py_iter (dget_or "recommendations" (VList []) dr) ;;
  selected <- find_destination selected_destination recs ;;
  if truthy selected then
    sd <- as_dict selected ;;
    dest <- dkey "destination" sd ;;
    ff <- (match py_int (dget_or "family_friendly_score" (VInt 5) sd) with
           | Some z => Ok (VBool (7 <? z)%Z)
           | None => Raise TypeError
           end) ;;
    reqs <- (match dget_or "requirements" (VDict []) st.(metadata) with
             | VDict r => Ok r
             | _ => Raise TypeError
             end) ;;
    let user_prefs :=
      spread [("destination", dest);
              ("budget", dget_or "estimated_daily_budget" (VInt 150) sd);
              ("family_friendly", ff)] reqs in
    Ok (GraphState st.(messages) VNone VNone user_prefs (VStr "PLANNER") tr
          (dset "selected_destination" selected
             (dset "destination_selected" (VBool true)
                (dset "preplanner_phase" (VBool false) st.(metadata)))), false)
  else Ok (st, true).

Definition handle_destination_selection (st : state) (selected_destination : pyval)
  : result state :=
  p <- handle_destination_selection_obj st selected_destination ;; Ok (fst p).

(** [updated_state["messages"] = ms] *)
Definition with_messages (st : state) (ms : list message) : state :=
  mkState ms st.(plan) st.(current_itinerary) st.(user_preferences) st.(next_agent)
          st.(tool_results) st.(metadata) st.(autonomous_execution).

(** [action_name in ACTION_REGISTRY] then [ACTION_REGISTRY[action_name]["agent"]] *)
Definition registry_agent (action_name : pyval) : result (option string) :=
  match action_name with
  | VStr a =>
      Ok (option_map (fun p => (snd p).(ac_agent))
                     (find (fun p => String.eqb (fst p) a) ACTION_REGISTRY))
  | VList _ | VDict _ => Raise TypeError
  | _ => Ok None
  end.

(** [handle_user_selection], with whether the state it returns is the
    [state] object it was given: its [return state] when the token is not
    offered, and the destination path when [handle_destination_selection]
    returns [state] itself, on which [updated_state["messages"] = ...] then
    writes in place. *)
Definition handle_user_selection_obj (st : state) (token : string) : result (state * bool) :=
  sugs <- py_iter (last_offered st.(messages)) ;;
  found <- find_token token sugs ;;
  match found with
  | None => Ok (st, true)
  | Some sel =>
      is_dest <- (if startswith token "D" then
                    a <- subscript sel "action" ;; Ok (py_eq_str a "select_destination")
                  else Ok false) ;;
      if is_dest then
        sd <- as_dict sel ;;
        let destination_name := dget_or "destination" (VStr "") sd in
        let user_message :=
          mkMsg Human ("I'd like to go to " ++ py_str destination_name)
                [("selected_token", VStr token)] in
        p <- handle_destination_selection_obj st destination_name ;;
        Ok (with_messages (fst p) (app st.(messages) [user_message]), snd p)
      else
        is_refine <- (if startswith token "D" then
                        a <- subscript sel "action" ;; Ok (py_eq_str a "refine_search")
                      else Ok false) ;;
        if is_refine then
          Ok (GraphState
                (app st.(messages)
                   [mkMsg Human "I'd like to see different destination options"
                          [("selected_token", VStr token)]])
                st.(plan) st.(current_itinerary) st.(user_preferences) (VStr "")
                st.(tool_results) (dset "preplanner_phase" (VBool true) st.(metadata)),
              false)
        else
          action_name <- subscript sel "action" ;;
          sd <- as_dict sel ;;
          let stored := dget_or "agent" VNone sd in
          target <- (if truthy stored then Ok stored
                     else
                       r <- registry_agent action_name ;;
                       Ok (match r with Some a => VStr a | None => stored end)) ;;
          let target_agent := if truthy target then target else VStr "PLANNER" in
          desc <- subscript sel "description" ;;
          Ok (GraphState
                (app st.(messages)
                   [mkMsg Human ("I'd like to: " ++ py_str desc) [("selected_token", VStr token)]])
                st.(plan) st.(current_itinerary) st.(user_preferences) target_agent
                st.(tool_results) st.(metadata),
              false)
  end.

Definition handle_user_selection (st : state) (token : string) : result state :=
  p <- handle_user_selection_obj st token ;; Ok (fst p).

(** ** Session entry points ([main.py], [ItineraryPlannerSystem]) *)

(** [self.sessions]: thread id to state. *)
Definition sessions := list (string * state).

Fixpoint sget (k : string) (ss : sessions) : option state :=
  match ss with
  | [] => None
  | (k', s) :: r => if String.eqb k k' then Some s else sget k r
  end.

Fixpoint sset (k : string) (s : state) (ss : sessions) : sessions :=
  match ss with
  | [] => [(k, s)]
  | (k', s') :: r => if String.eqb k k' then (k', s) :: r else (k', s') :: sset k s r
  end.

(** Modelled from the spec: [core.state.create_initial_state], whose module
    is not among the sources.  The state record is created on the session's
    first user message, which it holds (as the router test
    [test_router_detection] relies on); the other keys start empty. *)
Definition create_initial_state (query : string) : state :=
  GraphState [HumanMessage query] VNone VNone [] (VStr "") [] [].

(** [config={"recursion_limit": 50}] in [process_query]. *)
Definition PROCESS_QUERY_RECURSION_LIMIT : nat := 50.

(** [handle_suggestion_selection] calls [self.graph.invoke(updated_state)]
    without a config: the default recursion limit of current LangGraph
    releases, 10007. *)
Definition DEFAULT_RECURSION_LIMIT : nat := 10007.

(** The dict returned to the caller ([timestamp] left out). *)
Inductive api_result : Type :=
| Answer (response : string) (suggestions : list pyval) (state_summary : dict)
         (thread_id : string)
| Failure (error : string) (response : option string)
          (suggestions : option (list pyval)) (thread_id : string).

Definition extract_response (st : state) : string :=
  match st.(messages) with
  | [] => "No response generated."
  | _ =>
      match find (fun m => match m.(msg_role) with AI => true | Human => false end)
                 (rev st.(messages)) with
      | Some m => m.(msg_content)
      | None => "Processing complete. Please review the itinerary above."
      end
  end.

Fixpoint count_executed (steps : list pyval) : result nat :=
  match steps with
  | [] => Ok 0
  | s :: r =>
      sd <- as_dict s ;;
      n <- count_executed r ;;
      Ok (if truthy (dget_or "executed" (VBool false) sd) then S n else n)
  end.

(** [_summarize_state]: [state.get("plan", {}).get(...)] raises when the
    plan is [None]. *)
Definition summarize_state (st : state) : result dict :=
  executed <- (p <- as_dict st.(plan) ;;
               steps <- py_iter (dget_or "steps" (VList []) p) ;;
               count_executed steps) ;;
  Ok [("message_count", VInt (Z.of_nat (length st.(messages))));
      ("has_plan", VBool (negb (is_none st.(plan))));
      ("executed_steps", VInt (Z.of_nat executed));
      ("current_itinerary", VBool (truthy st.(current_itinerary)));
      ("last_agent", st.(next_agent))].

(** The part shared by both entry points after [graph.invoke] returned:
    store the final state, append the follow-up message to it (the stored
    object), and answer. *)
Definition finish (e : env) (ss : sessions) (tid : string) (final : state)
  (fail : exc -> sessions -> api_result * sessions) : api_result * sessions :=
  let fu := generate_follow_up_suggestions e final in
  let final' := with_messages final (app final.(messages) [fu.(fu_message)]) in
  let ss' := sset tid final' ss in
  match summarize_state final' with
  | Raise ex => fail ex ss'
  | Ok summary => (Answer (extract_response final') fu.(fu_suggestions) summary tid, ss')
  end.

(** The state [process_query] runs the graph on: the session's state, or a
    fresh one, after [state["messages"].append(HumanMessage(content=query))];
    and whether it is the stored session's state. *)
Definition query_state (ss : sessions) (query tid : string) : state * bool :=
  match sget tid ss with
  | Some s => (with_messages s (app s.(messages) [HumanMessage query]), true)
  | None =>
      let s := create_initial_state query in
      (with_messages s (app s.(messages) [HumanMessage query]), false)
  end.

Definition process_query (e : env) (ss : sessions) (query tid : string)
  : api_result * sessions :=
  let fail ex ss' :=
    (Failure (exc_str ex)
             (Some "I encountered an error processing your request. Please try again.")
             (Some []) tid, ss') in
  let '(st1, stored) := query_state ss query tid in
  (* the append mutates the stored session's state in place *)
  let ss1 := if stored then sset tid st1 ss else ss in
  match invoke PROCESS_QUERY_RECURSION_LIMIT e st1 with
  | Raise ex => fail ex ss1
  | Ok final => finish e ss1 tid final fail
  end.

Definition handle_suggestion_selection (e : env) (ss : sessions) (token tid : string)
  : api_result * sessions :=
  match sget tid ss with
  | None =>
      (Failure "Session not found. Please start a new conversation." None None tid, ss)
  | Some st =>
      let fail ex ss' :=
        (Failure (exc_str ex)
                 (Some "I encountered an error processing your selection. Please try again.")
                 None tid, ss') in
      match handle_user_selection_obj st token with
      | Raise ex => fail ex ss
      | Ok (updated, in_place) =>
          (* when [updated_state] is the session's own state object, the
             session holds what [handle_user_selection] wrote on it *)
          let ss1 := if in_place then sset tid updated ss else ss in
          match invoke DEFAULT_RECURSION_LIMIT e updated with
          | Raise ex => fail ex ss1
          | Ok final => finish e ss1 tid final fail
          end
      end
  end.

(** ** Concrete sessions used by the examples and counterexamples *)

Definition no_delta : delta := mkDelta None None None None None None None.

(** A handler standing for a node outside the core: it answers with one
    message. *)
Definition answering_handler (n : node) (st : state) : result delta :=
  Ok {| d_messages := Some (app st.(messages) [AIMessage "Here are the results."]);
        d_plan := None; d_itinerary := None; d_prefs := None; d_next_agent := None;
        d_tool_results := None; d_metadata := None |}.

(** The classifier's validation reply accepting the results. *)
Definition satisfied_reply : pyval :=
  VDict [("validation_passed", VBool true); ("issues", VList []);
         ("next_action", VStr "END"); ("reasoning", VStr "Request fulfilled")].

(** A session environment whose router classifier answers [router_reply]. *)
Definition env_with (router_reply : llm_text) (followup_reply : llm_json) : env :=
  mkEnv None (fun _ => router_reply) (fun _ => JParsed satisfied_reply)
        (fun _ => followup_reply)
        (fun _ => Ok (VDict [("flights", VList [])])) (fun _ => "No flights found.")
        (fun _ _ => Ok VNone) answering_handler.

Definition offered_suggestion (tok action agent desc : string) : pyval :=
  VDict [("token", VStr tok); ("action", VStr action); ("agent", VStr agent);
         ("description", VStr desc); ("priority", VInt 1)].

(** A batch of three follow-up tokens, as [generate_follow_up_suggestions]
    stores it in the follow-up message. *)
Definition offered_batch : list pyval :=
  [offered_suggestion "A1" "search_flights" "FLIGHT" "Search for flight options to Lisbon";
   offered_suggestion "A2" "search_hotels" "HOTEL" "Find accommodation in Lisbon";
   offered_suggestion "A3" "search_activities" "ACTIVITY" "Find activities and attractions in Lisbon"].

(** The session after a first query and its follow-up message. *)
Definition st_offered : state :=
  GraphState
    [HumanMessage "Plan a trip to Lisbon"; AIMessage "Here are the results.";
     mkMsg AI "What would you like to do next?"
           [("suggestions", VList offered_batch); ("reasoning", VStr "")]]
    VNone VNone [("destination", VStr "Lisbon")] (VStr "END") []
    [("reasoning_iterations", VInt 1)].

(** * Properties *)

(** Steps over the head [bind] of a hypothesis [bind r k = Ok _]. *)
Ltac step_bind H :=
  match type of H with
  | bind ?r _ = _ => let E := fresh "E" in
                     destruct r eqn:E; cbn [bind] in H; [| discriminate H]
  end.


(** ** Dicts *)

Lemma dget_dset_same (k : string) (v : pyval) (d : dict) :
  dget k (dset k v d) = Some v.
Proof.
  induction d as [| [k' v'] r IH]; simpl.
  - rewrite String.eqb_refl. reflexivity.
  - destruct (String.eqb k k') eqn:E; simpl.
    + rewrite E. reflexivity.
    + rewrite E. exact IH.
Qed.

Lemma dget_dset_other (k k' : string) (v : pyval) (d : dict) :
  k <> k' -> dget k (dset k' v d) = dget k d.
Proof.
  intros Hne. induction d as [| [k0 v0] r IH]; simpl.
  - apply String.eqb_neq in Hne. rewrite Hne. reflexivity.
  - destruct (String.eqb k' k0) eqn:E; simpl.
    + apply String.eqb_eq in E. subst k0.
      apply String.eqb_neq in Hne. rewrite Hne. reflexivity.
    + destruct (String.eqb k k0); [reflexivity | exact IH].
Qed.

Lemma merge_twice (st : state) (d : delta) : merge (merge st d) d = merge st d.
Proof.
  destruct st, d as [[] [] [] [] [] [] []]; reflexivity.
Qed.

(** ** The reasoning node *)

Lemma iterations_of_forced_end (md : dict) :
  iterations_of (dset "reasoning_forced_end" (VBool true) md) = iterations_of md.
Proof.
  unfold iterations_of. rewrite dget_dset_other by discriminate. reflexivity.
Qed.

(** Whether the reasoning node's classifier path runs to its end: the
    client is built, the reply parses to a JSON object and its [issues] and
    [recommendations] can be listed. *)
Definition classifier_succeeds (e : env) (st : state) : bool :=
  match setup e with
  | Raise _ => false
  | Ok _ =>
      match json_outcome (e.(reasoning_llm) st) with
      | Raise _ => false
      | Ok v =>
          match as_dict v with
          | Raise _ => false
          | Ok r => match reasoning_message r with Ok _ => true | Raise _ => false end
          end
      end
  end.

(** Claim C1: once the session metadata records at least MAX_ITER (2)
    reasoning iterations, the reasoning node returns the terminal directive
    END with the [reasoning_forced_end] flag set in its metadata, and it
    does so without consulting the classifier: every environment (every
    classifier reply, failing or not) yields the same delta. *)
Theorem reasoning_node_forced_end (e : env) (st : state) (n : Z) :
  iterations_of st.(metadata) = Some n ->
  (MAX_REASONING_ITERATIONS <= n)%Z ->
  exists d, reasoning_node e st = Ok d
    /\ d.(d_next_agent) = Some (VStr "END")
    /\ (exists md, d.(d_metadata) = Some md
                   /\ dget "reasoning_forced_end" md = Some (VBool true))
    /\ forall e' : env, reasoning_node e' st = Ok d.
Proof.
  intros Hn Hle.
  assert (Hb : (MAX_REASONING_ITERATIONS <=? n)%Z = true) by (apply Z.leb_le; exact Hle).
  unfold reasoning_node, reasoning_try. cbv zeta.
  unfold iterations_of in Hn |- *. rewrite Hn. simpl bind. rewrite Hb.
  eexists. split; [reflexivity |]. split; [reflexivity |]. split.
  - eexists. split; [reflexivity | apply dget_dset_same].
  - intros e'. reflexivity.
Qed.

Definition st_two_iterations : state :=
  GraphState [HumanMessage "Plan a trip to Lisbon"] VNone VNone [] (VStr "PLANNER") []
             [("reasoning_iterations", VInt 2)].

Lemma reasoning_node_forced_end_witness :
  exists d, reasoning_node (env_with (TText "PLANNER") JMalformed) st_two_iterations = Ok d
    /\ d.(d_next_agent) = Some (VStr "END")
    /\ (exists md, d.(d_metadata) = Some md
                   /\ dget "reasoning_forced_end" md = Some (VBool true))
    /\ forall e' : env, reasoning_node e' st_two_iterations = Ok d.
Proof.
  apply (reasoning_node_forced_end _ _ 2%Z); [reflexivity | unfold MAX_REASONING_ITERATIONS; lia].
Defined.

(** The reading of claim C3: every execution of the reasoning node, on
    every path, leaves the counter exactly one higher. *)
Definition reasoning_always_increments : Prop :=
  forall (e : env) (st : state) (n : Z) (d : delta),
    iterations_of st.(metadata) = Some n ->
    reasoning_node e st = Ok d ->
    iterations_of (merge st d).(metadata) = Some (n + 1)%Z.

(** Claim C3 fails: at the bound the forced-end path leaves the counter at
    2, and below it a classifier reply that is not JSON sends the node to
    its [except] block, which returns no metadata, leaving the counter at
    1. *)
Lemma reasoning_counter_not_always_incremented :
  ~ reasoning_always_increments
  /\ iterations_of
       (merge st_offered (reasoning_failure st_offered)).(metadata) = Some 1%Z
  /\ reasoning_node (mkEnv None (fun _ => TText "END") (fun _ => JMalformed)
                           (fun _ => JMalformed) (fun _ => Ok VNone) (fun _ => "")
                           (fun _ _ => Ok VNone) answering_handler) st_offered
     = Ok (reasoning_failure st_offered).
Proof.
  split; [| split; reflexivity].
  intros H.
  specialize (H (env_with (TText "PLANNER") JMalformed) st_two_iterations 2%Z _
                eq_refl eq_refl).
  discriminate H.
Qed.

(** Claim C3, as the code does it: an execution of the reasoning node
    increments [reasoning_iterations] by exactly one when it is below the
    bound and its classifier path succeeds, and leaves it unchanged on the
    forced-end path and on the failure path; it never decrements it. *)
Theorem reasoning_node_counter (e : env) (st : state) (n : Z) :
  iterations_of st.(metadata) = Some n ->
  exists d, reasoning_node e st = Ok d
    /\ iterations_of (merge st d).(metadata)
       = Some (if (n <? MAX_REASONING_ITERATIONS)%Z && classifier_succeeds e st
               then (n + 1)%Z else n).
Proof.
  intros Hn.
  unfold reasoning_node, reasoning_try, classifier_succeeds. cbv zeta.
  unfold iterations_of in Hn |- *. rewrite Hn. simpl bind.
  rewrite (Z.ltb_antisym MAX_REASONING_ITERATIONS n).
  destruct (MAX_REASONING_ITERATIONS <=? n)%Z; simpl.
  - eexists. split; [reflexivity |]. simpl.
    rewrite dget_dset_other by discriminate. rewrite Hn. reflexivity.
  - destruct (setup e); simpl.
    + destruct (json_outcome (reasoning_llm e st)) as [v |]; simpl.
      * destruct (as_dict v) as [r |]; simpl.
        -- destruct (reasoning_message r); simpl.
           ++ eexists. split; [reflexivity |]. simpl.
              rewrite dget_dset_same. reflexivity.
           ++ eexists. split; [reflexivity |]. simpl. rewrite Hn. reflexivity.
        -- eexists. split; [reflexivity |]. simpl. rewrite Hn. reflexivity.
      * eexists. split; [reflexivity |]. simpl. rewrite Hn. reflexivity.
    + eexists. split; [reflexivity |]. simpl. rewrite Hn. reflexivity.
Qed.

Lemma reasoning_node_counter_witness :
  exists d, reasoning_node (env_with (TText "PLANNER") JMalformed) st_offered = Ok d
    /\ iterations_of (merge st_offered d).(metadata) = Some 2%Z.
Proof.
  apply (reasoning_node_counter (env_with (TText "PLANNER") JMalformed) st_offered 1%Z).
  reflexivity.
Defined.

(** ** The router *)

(** An environment where building the language-model client raises, as
    [ChatOpenAI(...)] does when no OpenAI API key is configured. *)
Definition env_no_api_key : env :=
  mkEnv (Some "The api_key client option must be set either by passing api_key to the client or by setting the OPENAI_API_KEY environment variable")
        (fun _ => TText "PLANNER") (fun _ => JMalformed) (fun _ => JMalformed)
        (fun _ => Ok (VDict [("flights", VList [])])) (fun _ => "No flights found.")
        (fun _ _ => Ok VNone) answering_handler.

Definition st_empty : state := GraphState [] VNone VNone [] (VStr "") [] [].

(** Claim C10 fails: [router_node] builds the language-model client inside
    its [try] before it looks at the history; when that raises, the
    [except] block answers an empty history with END together with a
    message list holding one ["Router error: ..."] message, not with
    [{"next_agent": "END"}] alone. *)
Lemma router_empty_history_setup_failure :
  router_node env_no_api_key st_empty
  = Ok {| d_messages := Some [AIMessage ("Router error: " ++ exc_str (ClientError
             "The api_key client option must be set either by passing api_key to the client or by setting the OPENAI_API_KEY environment variable"))];
          d_plan := None; d_itinerary := None; d_prefs := None;
          d_next_agent := Some (VStr "END"); d_tool_results := None;
          d_metadata := None |}
  /\ router_node env_no_api_key st_empty
     <> Ok {| d_messages := None; d_plan := None; d_itinerary := None; d_prefs := None;
              d_next_agent := Some (VStr "END"); d_tool_results := None;
              d_metadata := None |}.
Proof.
  split; [reflexivity |]. vm_compute. intros H. discriminate H.
Qed.

(** Claim C10, as the code does it: on a state with an empty message
    history the router does not raise and sets the directive to END.  When
    the language-model client is built ([get_config()], [ChatOpenAI(...)]),
    it returns exactly [{"next_agent": "END"}]: no message is appended and
    no other key is returned.  When building the client raises, it returns
    END with the history extended by one ["Router error: <exception>"]
    message. *)
Theorem router_empty_history_ends (e : env) (st : state) :
  st.(messages) = [] ->
  router_node e st
  = Ok (match setup e with
        | Ok _ =>
            {| d_messages := None; d_plan := None; d_itinerary := None; d_prefs := None;
               d_next_agent := Some (VStr "END"); d_tool_results := None;
               d_metadata := None |}
        | Raise ex =>
            {| d_messages := Some [AIMessage ("Router error: " ++ exc_str ex)];
               d_plan := None; d_itinerary := None; d_prefs := None;
               d_next_agent := Some (VStr "END"); d_tool_results := None;
               d_metadata := None |}
        end).
Proof.
  intros Hm. unfold router_node, router_try, router_failure. rewrite Hm.
  destruct (setup e); reflexivity.
Qed.

Lemma router_empty_history_ends_witness :
  router_node (env_with (TText "PLANNER") JMalformed) st_empty
  = Ok {| d_messages := None; d_plan := None; d_itinerary := None; d_prefs := None;
          d_next_agent := Some (VStr "END"); d_tool_results := None;
          d_metadata := None |}
  /\ router_node env_no_api_key st_empty
     = Ok {| d_messages := Some [AIMessage ("Router error: " ++ exc_str (ClientError
                "The api_key client option must be set either by passing api_key to the client or by setting the OPENAI_API_KEY environment variable"))];
             d_plan := None; d_itinerary := None; d_prefs := None;
             d_next_agent := Some (VStr "END"); d_tool_results := None;
             d_metadata := None |}.
Proof.
  split.
  - apply (router_empty_history_ends (env_with (TText "PLANNER") JMalformed) st_empty).
    reflexivity.
  - apply (router_empty_history_ends env_no_api_key st_empty). reflexivity.
Defined.

(** ** The flight handler's merge into [tool_results] *)

Lemma flight_try_other_keys (e : env) (st : state) (d : delta) (k : string) :
  flight_try e st = Ok d ->
  k <> "flight_search" -> k <> "selected_flight" ->
  dget k (upd d.(d_tool_results) st.(tool_results)) = dget k st.(tool_results).
Proof.
  intros H Hf Hs. unfold flight_try in H.
  destruct (flight_search e st) as [r |]; simpl in H; [| discriminate].
  destruct (truthy (autonomous_execution st)).
  - destruct (flight_select e st r) as [sel |]; simpl in H; [| discriminate].
    destruct (truthy sel).
    + destruct (subscript sel "airline"); simpl in H; [| discriminate].
      destruct (subscript sel "total_price") as [price |]; simpl in H; [| discriminate].
      destruct (fmt_2f price); simpl in H; [| discriminate].
      injection H as <-. simpl.
      rewrite !dget_dset_other by assumption. reflexivity.
    + injection H as <-. simpl. rewrite !dget_dset_other by assumption. reflexivity.
  - injection H as <-. simpl. rewrite dget_dset_other by assumption. reflexivity.
Qed.

(** Claim C9: merging the flight handler's return value a second time
    leaves every key of [tool_results] (in particular the handler's own
    key) with the value the first merge gave it, and the merge changes no
    key other than the ones the handler writes ([flight_search] and
    [selected_flight]). *)
Theorem flight_results_merge (e : env) (st : state) (d : delta) :
  flight_agent_node e st = Ok d ->
  (forall k, dget k (merge (merge st d) d).(tool_results)
             = dget k (merge st d).(tool_results))
  /\ (forall k, k <> "flight_search" -> k <> "selected_flight" ->
                dget k (merge st d).(tool_results) = dget k st.(tool_results)).
Proof.
  intros H. split.
  - intros k. rewrite merge_twice. reflexivity.
  - intros k Hf Hs. unfold flight_agent_node, try_except in H.
    destruct (flight_try e st) as [d0 |] eqn:E; injection H as <-.
    + exact (flight_try_other_keys e st d0 k E Hf Hs).
    + reflexivity.
Qed.

Definition st_with_results : state :=
  GraphState [HumanMessage "Find flights to Lisbon"] VNone VNone [] (VStr "FLIGHT")
             [("s1", VDict [("destination", VStr "Lisbon")]);
              ("hotel_search", VDict [("hotels", VList [])])] [].

Lemma flight_results_merge_witness :
  exists d, flight_agent_node (env_with (TText "FLIGHT") JMalformed) st_with_results = Ok d
  /\ (forall k, dget k (merge (merge st_with_results d) d).(tool_results)
                = dget k (merge st_with_results d).(tool_results))
  /\ (forall k, k <> "flight_search" -> k <> "selected_flight" ->
                dget k (merge st_with_results d).(tool_results)
                = dget k st_with_results.(tool_results)).
Proof.
  eexists. split; [reflexivity |].
  apply (flight_results_merge (env_with (TText "FLIGHT") JMalformed) st_with_results).
  reflexivity.
Defined.

(** ** Classifier failures in the router and the reasoning node *)

Definition st_query : state :=
  create_initial_state "Plan a 5-day trip to Lisbon in May".

Definition env_router_timeout : env := env_with (TRaise "Request timed out.") JMalformed.

(** Claim C6 fails for the router: when its classifier call raises, the
    router does not fall back to the planning handler; its [except] block
    sets the directive to END and appends the error text to the history. *)
Lemma router_classifier_failure_ends :
  router_node env_router_timeout st_query
  = Ok {| d_messages := Some (app st_query.(messages)
                                [AIMessage "Router error: Request timed out."]);
          d_plan := None; d_itinerary := None; d_prefs := None;
          d_next_agent := Some (VStr "END"); d_tool_results := None;
          d_metadata := None |}
  /\ ~ (forall d, router_node env_router_timeout st_query = Ok d ->
                  d.(d_next_agent) = Some (VStr "PLANNER")).
Proof.
  split; [reflexivity |].
  intros H. specialize (H _ eq_refl). discriminate H.
Qed.

(** Claim C6, as the code does it.  When the router consults its classifier
    (non-empty history, no [destination_selected] flag, no
    destination-help trigger):
    - a reply outside the valid agent names is coerced to PLANNER;
    - a classifier call that raises, or a failure to build the
      language-model client, makes the router return END with a
      ["Router error: ..."] message appended, and the run ends after it.
    When the reasoning node consults its classifier (counter below
    MAX_ITER) and the call raises, the reply is not JSON, or the client
    cannot be built, it returns END with the neutral message
    "Reasoning validation complete." and no metadata, and the run ends
    after it. *)
Theorem classifier_failure_recovery (e : env) (st : state) (m : message) :
  last_opt st.(messages) = Some m ->
  destination_selected st.(metadata) = false ->
  needs_destination_help st m = false ->
  (setup e = Ok tt ->
   forall s, e.(router_llm) st = TText s ->
     existsb (String.eqb (py_upper (py_strip s))) valid_agents = false ->
     exists d, router_node e st = Ok d /\ d.(d_next_agent) = Some (VStr "PLANNER"))
  /\ (setup e = Ok tt ->
      forall msg, e.(router_llm) st = TRaise msg ->
      exists d, router_node e st = Ok d
        /\ d.(d_next_agent) = Some (VStr "END")
        /\ d.(d_messages) = Some (app st.(messages) [AIMessage ("Router error: " ++ msg)])
        /\ next_edge NRouter (merge st d) = Ok GEnd)
  /\ (forall ex, setup e = Raise ex ->
      exists d, router_node e st = Ok d
        /\ d.(d_next_agent) = Some (VStr "END")
        /\ d.(d_messages)
           = Some (app st.(messages) [AIMessage ("Router error: " ++ exc_str ex)])
        /\ next_edge NRouter (merge st d) = Ok GEnd)
  /\ (forall n, iterations_of st.(metadata) = Some n ->
       (n < MAX_REASONING_ITERATIONS)%Z ->
       (e.(reasoning_llm) st = JMalformed
        \/ (exists msg, e.(reasoning_llm) st = JRaise msg)
        \/ (exists ex, setup e = Raise ex)) ->
       exists d, reasoning_node e st = Ok d
         /\ d.(d_next_agent) = Some (VStr "END")
         /\ d.(d_messages) = Some (app st.(messages) [AIMessage "Reasoning validation complete."])
         /\ d.(d_metadata) = None
         /\ next_edge NReasoning (merge st d) = Ok GEnd).
Proof.
  intros Hlast Hsel Hhelp.
  assert (Hrouter : setup e = Ok tt -> forall r, e.(router_llm) st = r ->
            router_node e st
            = Ok (try_except
                    (text <- match r with TRaise m => Raise (ClientError m) | TText s => Ok s end ;;
                     let decision0 := py_upper (py_strip text) in
                     let decision :=
                       if existsb (String.eqb decision0) valid_agents then decision0
                       else "PLANNER" in
                     Ok {| d_messages := Some (app st.(messages)
                              [mkMsg AI ("Routing to " ++ decision ++ " agent...")
                                     [("route_decision", VStr decision)]]);
                           d_plan := None; d_itinerary := None; d_prefs := None;
                           d_next_agent := Some (VStr decision);
                           d_tool_results := None; d_metadata := None |})
                    (router_failure st))).
  { intros Hs r Hr. unfold router_node, router_try. rewrite Hs. simpl bind.
    rewrite Hlast. cbv zeta. rewrite Hsel, Hhelp. rewrite Hr. reflexivity. }
  split; [| split; [| split]].
  - intros Hs s Hr Hv. rewrite (Hrouter Hs _ Hr). cbv beta iota zeta delta [bind try_except].
    rewrite Hv. eexists. split; reflexivity.
  - intros Hs msg Hr. rewrite (Hrouter Hs _ Hr). simpl.
    eexists. split; [reflexivity | repeat split].
  - intros ex Hs. unfold router_node, router_try. rewrite Hs. cbn [bind try_except].
    eexists. split; [reflexivity | repeat split].
  - intros n Hn Hlt Hr.
    assert (Hb : (MAX_REASONING_ITERATIONS <=? n)%Z = false) by (apply Z.leb_gt; exact Hlt).
    exists (reasoning_failure st). split; [| repeat split].
    unfold reasoning_node, reasoning_try. cbv zeta.
    unfold iterations_of in Hn |- *. rewrite Hn. cbv beta iota delta [bind]. rewrite Hb.
    destruct (setup e) as [[] | ex] eqn:Hs; [| reflexivity].
    destruct Hr as [Hr | [[msg Hr] | [ex Hr]]]; [| | discriminate Hr];
      rewrite Hr; reflexivity.
Qed.

Lemma classifier_failure_recovery_witness :
  exists d, router_node env_router_timeout st_query = Ok d
    /\ d.(d_next_agent) = Some (VStr "END")
    /\ d.(d_messages) = Some (app st_query.(messages)
                                [AIMessage ("Router error: " ++ "Request timed out.")]).
Proof.
  destruct (classifier_failure_recovery env_router_timeout st_query
              (HumanMessage "Plan a 5-day trip to Lisbon in May")
              eq_refl eq_refl eq_refl) as [_ [H _]].
  destruct (H eq_refl "Request timed out." eq_refl) as (d & Hd & Hn & Hm & _).
  exists d. auto.
Defined.

(** ** Offered follow-up actions and the action registry *)

(** A suggestion entry that names a registry action available on [st],
    with the registry's handler for it. *)
Definition offered_from_registry (st : state) (s : pyval) : Prop :=
  exists d a cfg,
    s = VDict d /\ dget "action" d = Some (VStr a)
    /\ In (a, cfg) ACTION_REGISTRY /\ cfg.(available_when) st = true
    /\ dget "agent" d = Some (VStr cfg.(ac_agent)).

(** [s.get(k)] on an entry of a batch *)
Definition field (k : string) (v : pyval) : pyval :=
  match v with VDict d => dget_or k VNone d | _ => VNone end.

Lemma collect_available_sound (st : state) (dest : pyval) :
  forall reg l, collect_available st dest reg = Ok l ->
  forall a, In a l ->
  exists cfg, In (a.(av_action), cfg) reg /\ cfg.(available_when) st = true
              /\ a.(av_agent) = cfg.(ac_agent).
Proof.
  induction reg as [| [id cfg] reg IH]; simpl; intros l Hc a Ha.
  - injection Hc as <-. destruct Ha.
  - destruct (available_when cfg st) eqn:Hav.
    + destruct (format_description st dest id (ac_description cfg)) as [desc |] eqn:Hf;
        simpl in Hc; [| discriminate].
      destruct (collect_available st dest reg) as [rest |] eqn:Hr;
        simpl in Hc; [| discriminate].
      injection Hc as <-. destruct Ha as [<- | Ha].
      * exists cfg. simpl. auto.
      * destruct (IH rest eq_refl a Ha) as (cfg' & Hin & Hw & Hag).
        exists cfg'. auto.
    + destruct (IH l Hc a Ha) as (cfg' & Hin & Hw & Hag). exists cfg'. auto.
Qed.

Lemma py_eq_str_true (v : pyval) (s : string) : py_eq_str v s = true -> v = VStr s.
Proof.
  destruct v; simpl; try discriminate.
  intros H. apply String.eqb_eq in H. subst. reflexivity.
Qed.

Lemma tokenize_sound (available : list available_action) :
  forall sugs i toks, tokenize available i sugs = Ok toks ->
  forall s, In s toks ->
  exists d m, s = VDict d /\ In m available
    /\ dget "action" d = Some (VStr m.(av_action))
    /\ dget "agent" d = Some (VStr m.(av_agent)).
Proof.
  induction sugs as [| x sugs IH]; simpl; intros i toks Ht s Hs.
  - injection Ht as <-. destruct Hs.
  - destruct (as_dict x) as [sd |] eqn:Hx; simpl in Ht; [| discriminate].
    destruct (find (fun a => py_eq_str (dget_or "action" VNone sd) (av_action a)) available)
      as [m |] eqn:Hfind.
    + destruct (tokenize available (S i) sugs) as [rest |] eqn:Hr;
        simpl in Ht; [| discriminate].
      injection Ht as <-. destruct Hs as [<- | Hs].
      * apply find_some in Hfind. destruct Hfind as [Hin Heq].
        apply py_eq_str_true in Heq.
        eexists; exists m. split; [reflexivity |].
        split; [exact Hin |]. simpl. rewrite Heq. split; reflexivity.
      * exact (IH _ _ Hr s Hs).
    + exact (IH _ _ Ht s Hs).
Qed.

Lemma get_available_actions_sound (st : state) (l : list available_action) :
  get_available_actions st = Ok l ->
  forall a, In a l ->
  exists cfg, In (a.(av_action), cfg) ACTION_REGISTRY
              /\ cfg.(available_when) st = true /\ a.(av_agent) = cfg.(ac_agent).
Proof. apply collect_available_sound. Qed.

Definition st_flights_found : state :=
  GraphState [HumanMessage "Find flights to Lisbon"] VNone VNone
    [("destination", VStr "Lisbon")] (VStr "END")
    [("flight_search", VDict [("flights", VList [])])]
    [("reasoning_iterations", VInt 1)].

Definition env_followup_malformed : env := env_with (TText "PLANNER") JMalformed.

(** Claim C5 fails when the follow-up classifier's reply cannot be parsed:
    the fixed fallback batch is offered whatever the state, and its first
    entry, [search_flights], is offered although flight results already
    exist, so its availability predicate is false. *)
Lemma follow_up_fallback_offers_unavailable :
  (generate_follow_up_suggestions env_followup_malformed st_flights_found).(fu_suggestions)
    = default_suggestions
  /\ ~ (forall s, In s (generate_follow_up_suggestions env_followup_malformed
                          st_flights_found).(fu_suggestions) ->
                  offered_from_registry st_flights_found s).
Proof.
  split; [reflexivity |].
  intros H.
  assert (Hin : In (VDict [("token", VStr "A1"); ("action", VStr "search_flights");
                            ("description", VStr "Search for flight options");
                            ("priority", VInt 1)])
                   (generate_follow_up_suggestions env_followup_malformed
                      st_flights_found).(fu_suggestions))
    by (left; reflexivity).
  destruct (H _ Hin) as (d & a & cfg & Hd & Ha & Hreg & Hav & _).
  injection Hd as <-. simpl in Ha. injection Ha as <-.
  simpl in Hreg.
  repeat (destruct Hreg as [Hreg | Hreg];
          [inversion Hreg; subst; vm_compute in Hav; discriminate Hav |]).
  destruct Hreg.
Qed.

(** The entries [destination_tokens] builds select a destination, under a
    token [D<n>]. *)
Lemma destination_tokens_sound :
  forall items i toks, destination_tokens i items = Ok toks ->
  forall s, In s toks ->
  field "action" s = VStr "select_destination"
  /\ exists n, field "token" s = VStr ("D" ++ nat_str n).
Proof.
  induction items as [| r items IH]; intros i toks H s Hs; simpl in H.
  - injection H as <-. destruct Hs.
  - destruct (as_dict r) as [d |]; cbn [bind] in H; [| discriminate H].
    destruct (destination_tokens (S i) items) as [rest |] eqn:Hr; cbn [bind] in H;
      [| discriminate H].
    injection H as <-. destruct Hs as [<- | Hs].
    + split; [reflexivity | exists i; reflexivity].
    + exact (IH _ _ Hr s Hs).
Qed.

(** An entry whose action is not a key of [ACTION_REGISTRY] is not offered
    from the registry. *)
Lemma not_registry_action (st : state) (s : pyval) (a : string) :
  field "action" s = VStr a -> ~ In a (map fst ACTION_REGISTRY) ->
  ~ offered_from_registry st s.
Proof.
  intros Ha Hn (d & a' & cfg & -> & Hd & Hreg & _).
  cbn [field] in Ha. unfold dget_or in Ha. rewrite Hd in Ha. injection Ha as ->.
  apply Hn. apply (in_map fst) in Hreg. exact Hreg.
Qed.

(** Claim C5, as the code does it.
    - Outside the destination-discovery phase ([preplanner_phase] not set),
      when the classifier's reply is parsed, every offered suggestion names a
      registry action whose availability predicate holds on the state, with
      that action's handler as its agent; classifier actions outside the
      available set are dropped.  When any step of that path raises, the
      fixed fallback batch is offered instead.
    - In the destination-discovery phase the batch is the one
      [generate_destination_suggestions] builds: entries selecting a
      destination under tokens [D<n>] and the [refine_search] entry [D99];
      or, when there are no recommendations, the single [refine_search]
      entry [A1]; or no entry at all when building the batch raises.  None
      of these actions is a registry action. *)
Theorem follow_up_suggestions_from_registry (e : env) (st : state) :
  (truthy (dget_or "preplanner_phase" (VBool false) st.(metadata)) = false ->
   (forall fu, follow_up_try e st = Ok fu ->
      generate_follow_up_suggestions e st = fu
      /\ forall s, In s fu.(fu_suggestions) -> offered_from_registry st s)
   /\ (forall ex, follow_up_try e st = Raise ex ->
        (generate_follow_up_suggestions e st).(fu_suggestions) = default_suggestions))
  /\ (truthy (dget_or "preplanner_phase" (VBool false) st.(metadata)) = true ->
      generate_follow_up_suggestions e st = generate_destination_suggestions st
      /\ (forall s, In s (generate_follow_up_suggestions e st).(fu_suggestions) ->
            ((field "action" s = VStr "select_destination"
              /\ exists n, field "token" s = VStr ("D" ++ nat_str n))
             \/ s = refine_token
             \/ s = VDict [("token", VStr "A1"); ("action", VStr "refine_search");
                           ("description", VStr "Refine my destination search");
                           ("priority", VInt 1)])
            /\ ~ offered_from_registry st s)
      /\ (forall rd,
            dget_or "destination_recommendations" (VDict []) st.(tool_results) = VDict rd ->
            truthy (dget_or "recommendations" (VList []) rd) = false ->
            (generate_follow_up_suggestions e st).(fu_suggestions)
            = [VDict [("token", VStr "A1"); ("action", VStr "refine_search");
                      ("description", VStr "Refine my destination search");
                      ("priority", VInt 1)]])
      /\ (forall ex, destination_suggestions_try st = Raise ex ->
            (generate_follow_up_suggestions e st).(fu_suggestions) = [])).
Proof.
  split.
  - intros Hpre. split.
    + intros fu Hfu.
      split; [unfold generate_follow_up_suggestions; rewrite Hfu; reflexivity |].
      intros s Hs.
      unfold follow_up_try in Hfu. rewrite Hpre in Hfu.
      destruct (setup e); simpl in Hfu; [| discriminate].
      destruct (get_available_actions st) as [available |] eqn:Hav;
        simpl in Hfu; [| discriminate].
      destruct available as [| a0 rest].
      * injection Hfu as <-. destruct Hs.
      * destruct (json_outcome (followup_llm e st)) as [v |]; simpl in Hfu; [| discriminate].
        destruct (as_dict v) as [r |]; simpl in Hfu; [| discriminate].
        destruct (py_iter (dget_or "suggestions" (VList []) r)) as [sugs |];
          simpl in Hfu; [| discriminate].
        destruct (tokenize (a0 :: rest) 0 sugs) as [toks |] eqn:Ht;
          simpl in Hfu; [| discriminate].
        injection Hfu as <-. simpl in Hs.
        destruct (tokenize_sound _ _ _ _ Ht s Hs) as (d & m & Hd & Hm & Hact & Hag).
        destruct (get_available_actions_sound st _ Hav m Hm) as (cfg & Hreg & Hw & Hmag).
        exists d, m.(av_action), cfg. rewrite Hmag in Hag. auto.
    + intros ex Hex. unfold generate_follow_up_suggestions. rewrite Hex. reflexivity.
  - intros Hpre.
    assert (Hg : generate_follow_up_suggestions e st = generate_destination_suggestions st)
      by (unfold generate_follow_up_suggestions, follow_up_try; rewrite Hpre; reflexivity).
    rewrite Hg. split; [reflexivity |].
    split; [| split].
    + intros s Hs.
      assert (Hc : (field "action" s = VStr "select_destination"
                    /\ exists n, field "token" s = VStr ("D" ++ nat_str n))
                   \/ s = refine_token
                   \/ s = VDict [("token", VStr "A1"); ("action", VStr "refine_search");
                                 ("description", VStr "Refine my destination search");
                                 ("priority", VInt 1)]).
      { unfold generate_destination_suggestions in Hs.
        destruct (destination_suggestions_try st) as [fu |] eqn:Hd; cbn [try_except] in Hs;
          [| destruct Hs].
        unfold destination_suggestions_try in Hd. step_bind Hd.
        destruct (negb _).
        - injection Hd as <-. destruct Hs as [<- | []]. right. right. reflexivity.
        - do 2 step_bind Hd. injection Hd as <-. cbn [fu_suggestions] in Hs.
          apply in_app_or in Hs. destruct Hs as [Hs | [<- | []]].
          + left. exact (destination_tokens_sound _ _ _ E1 s Hs).
          + right. left. reflexivity. }
      split; [exact Hc |].
      destruct Hc as [[Ha _] | [-> | ->]];
        [apply (not_registry_action st s "select_destination" Ha)
        | apply not_registry_action with (a := "refine_search"); [reflexivity |]
        | apply not_registry_action with (a := "refine_search"); [reflexivity |]];
        simpl; intuition discriminate.
    + intros rd Hrd Hrecs.
      unfold generate_destination_suggestions, destination_suggestions_try.
      rewrite Hrd. cbn [as_dict bind]. rewrite Hrecs. reflexivity.
    + intros ex Hex. unfold generate_destination_suggestions. rewrite Hex. reflexivity.
Qed.

(** A session in the destination-discovery phase with no recommendation. *)
Definition st_discovery_empty : state :=
  GraphState [HumanMessage "Help me choose a destination"] VNone VNone [] (VStr "END")
    [("destination_recommendations", VDict [("recommendations", VList [])])]
    [("preplanner_phase", VBool true)].

Lemma follow_up_suggestions_from_registry_witness :
  (generate_follow_up_suggestions env_followup_malformed st_flights_found).(fu_suggestions)
    = default_suggestions
  /\ (generate_follow_up_suggestions env_followup_malformed st_discovery_empty).(fu_suggestions)
     = [VDict [("token", VStr "A1"); ("action", VStr "refine_search");
               ("description", VStr "Refine my destination search");
               ("priority", VInt 1)]].
Proof.
  destruct (follow_up_suggestions_from_registry env_followup_malformed st_flights_found)
    as [Hout _].
  destruct (Hout eq_refl) as [_ H].
  destruct (follow_up_suggestions_from_registry env_followup_malformed st_discovery_empty)
    as [_ Hin].
  destruct (Hin eq_refl) as (_ & _ & Hempty & _).
  split.
  - apply (H JSONDecodeError). vm_compute. reflexivity.
  - apply (Hempty [("recommendations", VList [])]); reflexivity.
Defined.

(** ** Every graph run starts at the router *)

Lemma run_from_head (e : env) :
  forall fuel n st tr st', run_from fuel e n st = Ok (tr, st') ->
  exists rest, tr = n :: rest.
Proof.
  destruct fuel as [| f]; simpl; intros n st tr st' H; [discriminate |].
  destruct (run_node e n st) as [d |]; simpl in H; [| discriminate].
  destruct (next_edge n (merge st d)) as [[m |] |]; simpl in H; try discriminate.
  - destruct (run_from f e m (merge st d)) as [p |]; simpl in H; [| discriminate].
    injection H as <- _. eexists. reflexivity.
  - injection H as <- _. eexists. reflexivity.
Qed.

Lemma invoke_trace_starts_at_router (limit : nat) (e : env) (st : state) tr st' :
  invoke_trace limit e st = Ok (tr, st') -> exists rest, tr = NRouter :: rest.
Proof. apply run_from_head. Qed.

(** ** Selecting a token that was not offered *)

(** Every entry of the batch is a dict whose token is a string other than
    [token]. *)
Definition token_absent (token : string) (sugs : list pyval) : bool :=
  forallb (fun s => match s with
                    | VDict d => match dget "token" d with
                                 | Some (VStr t) => negb (String.eqb t token)
                                 | _ => false
                                 end
                    | _ => false
                    end) sugs.

Lemma find_token_absent (token : string) :
  forall sugs, token_absent token sugs = true -> find_token token sugs = Ok None.
Proof.
  induction sugs as [| s sugs IH]; simpl; intros H; [reflexivity |].
  destruct s as [| | | | | d]; try discriminate.
  destruct (dget "token" d) as [[| | | t | |] |] eqn:Ht; try discriminate.
  apply andb_prop in H. destruct H as [Hne Hrest].
  unfold subscript, dkey. rewrite Ht. simpl.
  apply negb_true_iff in Hne. rewrite Hne. apply IH. exact Hrest.
Qed.

(** Claim C7 fails: a token missing from the last offered batch leaves the
    session state as it was; the raw input is not added as a new user
    message (the newest message is still the assistant's follow-up). *)
Lemma unknown_token_adds_no_message :
  handle_user_selection st_offered "A4" = Ok st_offered
  /\ ~ (exists st' m, handle_user_selection st_offered "A4" = Ok st'
                      /\ last_opt st'.(messages) = Some m /\ m.(msg_role) = Human).
Proof.
  split; [reflexivity |].
  intros (st' & m & H & Hl & Hr).
  vm_compute in H. injection H as <-.
  vm_compute in Hl. injection Hl as <-. discriminate Hr.
Qed.

(** Claim C7, as the code does it.  When the last offered batch is a list
    of dicts whose tokens are all strings other than [token], resolution
    does not raise and returns the state unchanged: no message is added and
    the routing directive is left as it was.  The next graph invocation
    starts at the router, as every invocation does. *)
Theorem unknown_token_state_unchanged (st : state) (token : string) (sugs : list pyval) :
  last_offered st.(messages) = VList sugs ->
  token_absent token sugs = true ->
  handle_user_selection st token = Ok st
  /\ (forall limit e tr st',
        invoke_trace limit e st = Ok (tr, st') -> exists rest, tr = NRouter :: rest).
Proof.
  intros Hl Ha. split.
  - unfold handle_user_selection, handle_user_selection_obj. rewrite Hl. simpl.
    rewrite (find_token_absent token sugs Ha). reflexivity.
  - intros limit e tr st'. apply invoke_trace_starts_at_router.
Qed.

Lemma unknown_token_state_unchanged_witness :
  handle_user_selection st_offered "A4" = Ok st_offered.
Proof.
  apply (unknown_token_state_unchanged st_offered "A4" offered_batch);
    vm_compute; reflexivity.
Defined.

(** ** Resolving an offered token, then running the graph *)

(** A router whose classifier answers HOTEL whatever the message. *)
Definition env_router_hotel : env := env_with (TText "HOTEL") JMalformed.

(** Claim C2 (code bug).  [handle_user_selection] resolves the offered
    token A1 to the flight handler and writes FLIGHT into [next_agent]
    ("Direct routing to target agent (no LLM re-evaluation needed)"), but
    the graph is entered at the router, which ignores [next_agent] and asks
    its classifier again: with a classifier answering HOTEL, the run executes
    the router, then the hotel handler, and never the flight handler. *)
Theorem selected_token_reenters_router :
  exists st_sel st',
    handle_user_selection st_offered "A1" = Ok st_sel
    /\ st_sel.(next_agent) = VStr "FLIGHT"
    /\ invoke_trace DEFAULT_RECURSION_LIMIT env_router_hotel st_sel
       = Ok ([NRouter; NHotel; NReasoning], st')
    /\ st'.(next_agent) = VStr "END".
Proof.
  do 2 eexists. split; [reflexivity |]. split; [reflexivity |].
  split; [vm_compute; reflexivity | reflexivity].
Qed.

(** ** Selecting a recommended destination *)

Definition recommendation (name country : string) : pyval :=
  VDict [("destination", VStr name); ("country", VStr country);
         ("estimated_daily_budget", VInt 180); ("family_friendly_score", VInt 8)].

(** The session in the destination-discovery phase, before its
    destination tokens are offered. *)
Definition st_discovery0 : state :=
  GraphState
    [HumanMessage "Help me choose a city break in May";
     AIMessage "Here are some destinations."]
    VNone VNone [] (VStr "END")
    [("destination_recommendations",
       VDict [("recommendations",
                VList [recommendation "New York" "USA";
                       recommendation "York" "United Kingdom"])])]
    [("preplanner_phase", VBool true); ("reasoning_iterations", VInt 1)].

(** The same session once the tokens D1, D2 and D99 have been offered (the
    follow-up message appended, as [process_query] does). *)
Definition st_discovery : state :=
  with_messages st_discovery0
    (app st_discovery0.(messages)
         [(generate_destination_suggestions st_discovery0).(fu_message)]).

(** Claim C8 (code bug).  The token D2 offers York, but
    [handle_destination_selection] looks the name up with a case-insensitive
    substring test and takes the first recommendation containing it: "york"
    is in "new york", so New York is written into the preferences and into
    [selected_destination].  The [destination_selected] flag is set, and the
    router's next execution does route to the planner, with the wrong
    destination. *)
Theorem destination_token_selects_wrong_city :
  exists st_sel d,
    find_token "D2" (match last_offered st_discovery.(messages) with
                     | VList l => l | _ => [] end)
      = Ok (Some (VDict [("token", VStr "D2"); ("action", VStr "select_destination");
                         ("destination", VStr "York");
                         ("description", VStr "Choose York, United Kingdom");
                         ("priority", VInt 2);
                         ("destination_data", recommendation "York" "United Kingdom")]))
    /\ handle_user_selection st_discovery "D2" = Ok st_sel
    /\ dget "destination" st_sel.(user_preferences) = Some (VStr "New York")
    /\ dget "selected_destination" st_sel.(metadata) = Some (recommendation "New York" "USA")
    /\ dget "destination_selected" st_sel.(metadata) = Some (VBool true)
    /\ router_node env_router_hotel st_sel = Ok d
    /\ d.(d_next_agent) = Some (VStr "PLANNER").
Proof.
  do 2 eexists.
  split; [vm_compute; reflexivity |].
  split; [vm_compute; reflexivity |].
  split; [vm_compute; reflexivity |].
  split; [vm_compute; reflexivity |].
  split; [vm_compute; reflexivity |].
  split; [vm_compute; reflexivity | reflexivity].
Qed.

(** ** Reaching the step ceiling *)

Definition one_step_plan : pyval :=
  VDict [("steps", VList [VDict [("id", VStr "s1"); ("action", VStr "flight_search");
                                 ("executed", VBool false)]])].

(** Handlers for the nodes outside the core in which the plan-execution
    handler answers with a fresh metadata dict (not spreading the old one),
    so the reasoning counter starts again from zero after every execution. *)
Definition replanning_handler (n : node) (st : state) : result delta :=
  match n with
  | NPlanner =>
      Ok {| d_messages := Some (app st.(messages) [AIMessage "Created execution plan."]);
            d_plan := Some one_step_plan; d_itinerary := None; d_prefs := None;
            d_next_agent := None; d_tool_results := None; d_metadata := None |}
  | NPlannerExecution =>
      Ok {| d_messages := Some (app st.(messages) [AIMessage "Executed the plan."]);
            d_plan := None; d_itinerary := None; d_prefs := None;
            d_next_agent := None; d_tool_results := None;
            d_metadata := Some [("execution_complete", VBool true)] |}
  | _ => answering_handler n st
  end.

(** The validation reply asking for a new plan. *)
Definition replan_reply : pyval :=
  VDict [("validation_passed", VBool false); ("issues", VList [VStr "No hotel found"]);
         ("next_action", VStr "PLANNER"); ("reasoning", VStr "Plan again")].

Definition env_replanning : env :=
  mkEnv None (fun _ => TText "PLANNER") (fun _ => JParsed replan_reply)
        (fun _ => JMalformed)
        (fun _ => Ok (VDict [("flights", VList [])])) (fun _ => "No flights found.")
        (fun _ _ => Ok VNone) replanning_handler.

Definition api_apology_query : string :=
  "I encountered an error processing your request. Please try again.".

Definition api_apology_selection : string :=
  "I encountered an error processing your selection. Please try again.".

(** Claim C4 fails: when the run reaches the step ceiling, LangGraph raises
    [GraphRecursionError]; [process_query] catches it and its caller gets an
    error dict (error text, apology, no suggestions), with no state and no
    forced-termination flag. *)
Lemma step_ceiling_gives_error_dict :
  invoke PROCESS_QUERY_RECURSION_LIMIT env_replanning
         (fst (query_state [] "Plan a weekend in Porto" "t1"))
    = Raise GraphRecursionError
  /\ fst (process_query env_replanning [] "Plan a weekend in Porto" "t1")
     = Failure (exc_str GraphRecursionError) (Some api_apology_query) (Some []) "t1"
  /\ ~ (exists response sugs summary,
          fst (process_query env_replanning [] "Plan a weekend in Porto" "t1")
          = Answer response sugs summary "t1").
Proof.
  split; [vm_compute; reflexivity |].
  split; [vm_compute; reflexivity |].
  intros (response & sugs & summary & H). vm_compute in H. discriminate H.
Qed.

Lemma handle_destination_selection_obj_in_place (st st2 : state) (sel : pyval) :
  handle_destination_selection_obj st sel = Ok (st2, true) -> st2 = st.
Proof.
  intros H. unfold handle_destination_selection_obj in H.
  do 3 step_bind H.
  destruct (truthy _); [| injection H as <-; reflexivity].
  do 4 step_bind H. discriminate H.
Qed.

(** The object [handle_user_selection] returns is the session's own state
    only when it is that state unchanged, or when the token starts with D
    and the state is the session's with one message appended. *)
Lemma handle_user_selection_obj_in_place (st updated : state) (token : string) :
  handle_user_selection_obj st token = Ok (updated, true) ->
  updated = st
  \/ (startswith token "D" = true
      /\ exists m, updated = with_messages st (app st.(messages) [m])).
Proof.
  intros H. unfold handle_user_selection_obj in H.
  do 2 step_bind H.
  lazymatch type of H with
  | (match ?x with Some _ => _ | None => _ end) = _ => destruct x as [sel |]
  end; [| left; injection H as <-; reflexivity].
  step_bind H.
  lazymatch type of H with (if ?b then _ else _) = _ => destruct b end.
  - do 2 step_bind H.
    lazymatch type of H with
    | Ok (_, snd ?p) = _ => destruct p as [st2 b]
    end.
    injection H as <- ->.
    match goal with
    | Hp : handle_destination_selection_obj _ _ = Ok _ |- _ =>
        apply handle_destination_selection_obj_in_place in Hp; subst st2
    end.
    right. split; [| eexists; reflexivity].
    destruct (startswith token "D"); [reflexivity | discriminate E1].
  - step_bind H.
    lazymatch type of H with (if ?b then _ else _) = _ => destruct b end;
      [discriminate H |].
    repeat step_bind H. discriminate H.
Qed.

(** Claim C4, as the code does it.  When the graph run raises
    [GraphRecursionError] (its ceiling is 50 in [process_query] and
    LangGraph's default, 10007, in [handle_suggestion_selection]), the
    exception is caught and the caller receives an error result, not a
    state, and no flag is written anywhere:
    - [process_query] answers with the error text, its apology and an empty
      suggestion list; a stored session keeps the query appended to it
      before the run;
    - [handle_suggestion_selection] answers with the error text and its
      apology; the stored session is the object [handle_user_selection]
      returned when that is the session's own state (it is then the state
      unchanged, or, for a D token, the state with the selection message
      appended), and is left as it was otherwise. *)
Theorem step_ceiling_error_result (e : env) (ss : sessions) (query token tid : string) :
  (invoke PROCESS_QUERY_RECURSION_LIMIT e (fst (query_state ss query tid))
     = Raise GraphRecursionError ->
   process_query e ss query tid
   = (Failure (exc_str GraphRecursionError) (Some api_apology_query) (Some []) tid,
      match sget tid ss with
      | Some _ => sset tid (fst (query_state ss query tid)) ss
      | None => ss
      end))
  /\ (forall st updated in_place,
        sget tid ss = Some st ->
        handle_user_selection_obj st token = Ok (updated, in_place) ->
        invoke DEFAULT_RECURSION_LIMIT e updated = Raise GraphRecursionError ->
        handle_suggestion_selection e ss token tid
        = (Failure (exc_str GraphRecursionError) (Some api_apology_selection) None tid,
           if in_place then sset tid updated ss else ss)
        /\ (in_place = true ->
            updated = st
            \/ (startswith token "D" = true
                /\ exists m, updated = with_messages st (app st.(messages) [m])))).
Proof.
  split.
  - intros H. unfold process_query, query_state in *.
    destruct (sget tid ss) as [s |]; cbn [fst] in H; rewrite H; reflexivity.
  - intros st updated in_place Hs Hu Hi. split.
    + unfold handle_suggestion_selection. rewrite Hs, Hu, Hi. reflexivity.
    + intros ->. exact (handle_user_selection_obj_in_place st updated token Hu).
Qed.

Definition ss_offered : sessions := [("t1", st_offered)].

(** A session whose last message offers the token D1 for Lisbon while its
    [tool_results] hold no recommendation (they were replaced since). *)
Definition st_stale_destination : state :=
  GraphState
    [HumanMessage "Plan a trip to Lisbon";
     mkMsg AI "Which destination would you like?"
           [("suggestions",
              VList [VDict [("token", VStr "D1"); ("action", VStr "select_destination");
                            ("destination", VStr "Lisbon")]])]]
    VNone VNone [("destination", VStr "Lisbon")] (VStr "END") []
    [("reasoning_iterations", VInt 1)].

Definition st_stale_selected : state :=
  with_messages st_stale_destination
    (app st_stale_destination.(messages)
       [mkMsg Human "I'd like to go to Lisbon" [("selected_token", VStr "D1")]]).

Lemma step_ceiling_error_result_witness :
  process_query env_replanning [] "Plan a weekend in Porto" "t1"
  = (Failure (exc_str GraphRecursionError) (Some api_apology_query) (Some []) "t1", [])
  /\ handle_suggestion_selection env_replanning [("t1", st_stale_destination)] "D1" "t1"
     = (Failure (exc_str GraphRecursionError) (Some api_apology_selection) None "t1",
        [("t1", st_stale_selected)]).
Proof.
  destruct (step_ceiling_error_result env_replanning [] "Plan a weekend in Porto" "D1" "t1")
    as [H1 _].
  destruct (step_ceiling_error_result env_replanning [("t1", st_stale_destination)]
              "Plan a weekend in Porto" "D1" "t1") as [_ H2].
  split.
  - apply H1. vm_compute. reflexivity.
  - apply (H2 st_stale_destination st_stale_selected true); vm_compute; reflexivity.
Defined.

(** * Further code of the flight handler ([agents/flight_agent.py]) *)

(** The [country_to_city] table of [convert_country_to_city]. *)
Definition country_to_city : list (string * string) :=
  [("japan", "Tokyo"); ("china", "Beijing"); ("south korea", "Seoul");
   ("korea", "Seoul"); ("thailand", "Bangkok"); ("singapore", "Singapore");
   ("vietnam", "Hanoi"); ("indonesia", "Jakarta"); ("malaysia", "Kuala Lumpur");
   ("philippines", "Manila"); ("india", "Delhi"); ("france", "Paris");
   ("italy", "Rome"); ("spain", "Madrid"); ("germany", "Berlin");
   ("united kingdom", "London"); ("uk", "London"); ("england", "London");
   ("netherlands", "Amsterdam"); ("greece", "Athens"); ("portugal", "Lisbon");
   ("switzerland", "Zurich"); ("austria", "Vienna"); ("united states", "New York");
   ("usa", "New York"); ("us", "New York"); ("america", "New York");
   ("canada", "Toronto"); ("mexico", "Mexico City"); ("brazil", "Sao Paulo");
   ("argentina", "Buenos Aires"); ("australia", "Sydney");
   ("new zealand", "Auckland"); ("egypt", "Cairo");
   ("south africa", "Johannesburg"); ("uae", "Dubai");
   ("united arab emirates", "Dubai"); ("turkey", "Istanbul")].

(** [table[k]] for [k in table] on a string-to-string dict *)
Fixpoint str_lookup (k : string) (t : list (string * string)) : option string :=
  match t with
  | [] => None
  | (k', v) :: r => if String.eqb k k' then Some v else str_lookup k r
  end.

Definition convert_country_to_city (destination : string) : string :=
  let destination_lower := py_strip (py_lower destination) in
  match str_lookup destination_lower country_to_city with
  | Some city => city
  | None => destination
  end.

Section FlightParams.

(** [(datetime.now() + timedelta(days=30)).strftime("%Y-%m-%d")] *)
Variable default_departure : string.
(** [(datetime.strptime(d, "%Y-%m-%d") + timedelta(days=n)).strftime("%Y-%m-%d")]:
    [Raise] when [d] is not a date string or [n] not a number. *)
Variable add_days : pyval -> pyval -> result string.

(** The loop over [tool_results.values()] looking for a dict with a
    ["destination"] key; [VNone] when there is none. *)
Fixpoint first_with_destination (vs : list pyval) : pyval :=
  match vs with
  | [] => VNone
  | v :: r =>
      match v with
      | VDict d => if dmem "destination" d then v else first_with_destination r
      | _ => first_with_destination r
      end
  end.

Definition extract_flight_params (st : state) : result dict :=
  let prefs := st.(user_preferences) in
  let md := st.(metadata) in
  let extracted_prefs :=
    if truthy (dget_or "flight_params" VNone md) then dget_or "flight_params" VNone md
    else first_with_destination (map snd st.(tool_results)) in
  (* [(extracted_prefs or prefs).get(...)] *)
  src <- as_dict (if truthy extracted_prefs then extracted_prefs else VDict prefs) ;;
  destination0 <- (match dget_or "destination" (VStr "Tokyo") src with
                   | VStr s => Ok s
                   | _ => Raise AttributeError
                   end) ;;
  let destination := convert_country_to_city destination0 in
  let params0 :=
    [("origin", VStr "SFO"); ("destination", VStr destination);
     ("departure_date", dget_or "start_date" VNone src);
     ("return_date", dget_or "end_date" VNone src);
     ("passengers", dget_or "travelers" (VInt 1) src);
     ("cabin_class", VStr "economy")] in
  let params :=
    if truthy (dget_or "departure_date" VNone params0) then params0
    else dset "departure_date" (VStr default_departure) params0 in
  if negb (truthy (dget_or "return_date" VNone params)) && truthy extracted_prefs then
    ex <- as_dict extracted_prefs ;;
    r <- add_days (dget_or "departure_date" VNone params)
                  (dget_or "duration_days" (VInt 7) ex) ;;
    Ok (dset "return_date" (VStr r) params)
  else Ok params.

End FlightParams.

(** ** Properties of the flight handler's helpers *)

Lemma country_cities_fixed :
  forallb (fun kv => String.eqb (convert_country_to_city (snd kv)) (snd kv))
          country_to_city = true.
Proof. vm_compute. reflexivity. Qed.

Lemma str_lookup_in (k v : string) (t : list (string * string)) :
  str_lookup k t = Some v -> In (k, v) t.
Proof.
  induction t as [| [k' v'] t IH]; simpl; [discriminate |].
  destruct (String.eqb k k') eqn:E.
  - intros H. injection H as <-. apply String.eqb_eq in E. subst. left. reflexivity.
  - intros H. right. apply IH. exact H.
Qed.

(** Converting a destination twice gives the same city as converting it
    once: every city of the table converts to itself. *)
Theorem convert_country_to_city_idempotent (destination : string) :
  convert_country_to_city (convert_country_to_city destination)
  = convert_country_to_city destination.
Proof.
  assert (H : convert_country_to_city destination
              = match str_lookup (py_strip (py_lower destination)) country_to_city with
                | Some city => city
                | None => destination
                end) by reflexivity.
  rewrite H.
  destruct (str_lookup (py_strip (py_lower destination)) country_to_city) as [city |] eqn:E;
    [| unfold convert_country_to_city; rewrite E; reflexivity].
  apply str_lookup_in in E.
  pose proof country_cities_fixed as Hall. rewrite forallb_forall in Hall.
  apply String.eqb_eq. exact (Hall _ E).
Qed.

(** The destination [extract_flight_params] hands to the search is a string
    the search's own [convert_country_to_city] call leaves unchanged. *)
Theorem extract_flight_params_destination_converted
  (default_departure : string) (add_days : pyval -> pyval -> result string)
  (st : state) (params : dict) :
  extract_flight_params default_departure add_days st = Ok params ->
  exists city, dget "destination" params = Some (VStr city)
               /\ convert_country_to_city city = city.
Proof.
  unfold extract_flight_params. intros H.
  destruct (as_dict _) as [src |]; cbv beta iota zeta delta [bind] in H; [| discriminate].
  destruct (dget_or "destination" (VStr "Tokyo") src) as [| | | s | |];
    try discriminate.
  exists (convert_country_to_city s).
  split; [| apply convert_country_to_city_idempotent].
  destruct (truthy (dget_or "departure_date" VNone _));
    destruct (negb _ && _);
    try (destruct (as_dict _); [| discriminate]; destruct (add_days _ _); [| discriminate]);
    injection H as <-;
    repeat rewrite dget_dset_other by discriminate; reflexivity.
Qed.

(** When neither [metadata["flight_params"]] nor any tool result carries a
    destination, the parameters come from the user preferences only, and no
    return date is generated: it is the preferences' [end_date], [None] when
    they have none. *)
Theorem extract_flight_params_no_generated_return
  (default_departure : string) (add_days : pyval -> pyval -> result string)
  (st : state) (params : dict) :
  truthy (dget_or "flight_params" VNone st.(metadata)) = false ->
  first_with_destination (map snd st.(tool_results)) = VNone ->
  extract_flight_params default_departure add_days st = Ok params ->
  dget "return_date" params = Some (dget_or "end_date" VNone st.(user_preferences)).
Proof.
  intros Hfp Hfirst. unfold extract_flight_params. rewrite Hfp, Hfirst.
  intros H. cbn [truthy as_dict bind] in H.
  destruct (dget_or "destination" (VStr "Tokyo") (user_preferences st)) as [| | | s | |];
    cbn [bind] in H; try discriminate.
  rewrite andb_false_r in H.
  destruct (truthy (dget_or "departure_date" VNone _));
    injection H as <-;
    repeat rewrite dget_dset_other by discriminate; reflexivity.
Qed.

Definition st_prefs_only : state :=
  GraphState [HumanMessage "Find flights to Japan"] VNone VNone
    [("destination", VStr "Japan"); ("start_date", VStr "2026-12-01")] (VStr "FLIGHT")
    [("s1", VDict [("budget", VStr "mid-range")])] [].

Lemma extract_flight_params_destination_converted_witness :
  exists params,
    extract_flight_params "2026-11-17" (fun _ _ => Ok "2026-11-24") st_prefs_only = Ok params
    /\ exists city, dget "destination" params = Some (VStr city)
                    /\ convert_country_to_city city = city.
Proof.
  eexists. split; [vm_compute; reflexivity |].
  apply (extract_flight_params_destination_converted "2026-11-17"
           (fun _ _ => Ok "2026-11-24") st_prefs_only).
  vm_compute. reflexivity.
Defined.

Lemma extract_flight_params_no_generated_return_witness :
  dget "return_date"
    (match extract_flight_params "2026-11-17" (fun _ _ => Ok "2026-11-24") st_prefs_only with
     | Ok p => p | Raise _ => [] end)
  = Some VNone.
Proof.
  apply (extract_flight_params_no_generated_return "2026-11-17"
           (fun _ _ => Ok "2026-11-24") st_prefs_only); vm_compute; reflexivity.
Defined.

(** When the search raises, the flight handler's return value changes no key
    but the messages, to which it appends one error message. *)
Theorem flight_agent_error_keeps_state (e : env) (st : state) (ex : exc) :
  e.(flight_search) st = Raise ex ->
  exists d, flight_agent_node e st = Ok d
    /\ merge st d = with_messages st (app st.(messages)
                                        [AIMessage ("Flight search error: " ++ exc_str ex)]).
Proof.
  intros H. unfold flight_agent_node, flight_try. rewrite H.
  eexists. split; [reflexivity |]. destruct st. reflexivity.
Qed.

Definition env_flight_timeout : env :=
  mkEnv None (fun _ => TText "FLIGHT") (fun _ => JParsed satisfied_reply)
        (fun _ => JMalformed) (fun _ => Raise (ClientError "Read timed out."))
        (fun _ => "No flights found.") (fun _ _ => Ok VNone) answering_handler.

Lemma flight_agent_error_keeps_state_witness :
  exists d, flight_agent_node env_flight_timeout st_offered = Ok d
    /\ merge st_offered d
       = with_messages st_offered
           (app st_offered.(messages)
                [AIMessage ("Flight search error: " ++ exc_str (ClientError "Read timed out."))]).
Proof.
  apply (flight_agent_error_keeps_state env_flight_timeout st_offered
           (ClientError "Read timed out.")).
  reflexivity.
Defined.

(** * Runs of the graph against the edges [build_graph] declares *)

(** The path maps given to [add_conditional_edges] in [build_graph]. *)
Definition declared_edges : list (node * target) :=
  [(NRouter, Goto NDestinationPlanner); (NRouter, Goto NPlanner);
   (NRouter, Goto NFlight); (NRouter, Goto NHotel); (NRouter, Goto NActivity);
   (NRouter, Goto NItinerary); (NRouter, Goto NReasoning); (NRouter, GEnd);
   (NDestinationPlanner, Goto NRouter); (NDestinationPlanner, GEnd);
   (NPlanner, Goto NPlannerExecution); (NPlanner, Goto NReasoning);
   (NPlannerExecution, Goto NReasoning); (NPlannerExecution, GEnd);
   (NFlight, Goto NReasoning); (NFlight, GEnd);
   (NHotel, Goto NReasoning); (NHotel, GEnd);
   (NActivity, Goto NReasoning); (NActivity, GEnd);
   (NItinerary, Goto NReasoning); (NItinerary, GEnd);
   (NReasoning, Goto NRouter); (NReasoning, GEnd)].

(** A trace of executed nodes in which each step follows a declared edge
    and whose last node stops through one of its declared [END] edges. *)
Fixpoint follows_declared_edges (tr : list node) : Prop :=
  match tr with
  | [] => False
  | [n] => In (n, GEnd) declared_edges
  | n :: ((m :: _) as r) => In (n, Goto m) declared_edges /\ follows_declared_edges r
  end.

Lemma next_edge_declared (n : node) (st : state) (t : target) :
  next_edge n st = Ok t -> In (n, t) declared_edges.
Proof.
  destruct n; simpl; intros H.
  - unfold route_after_router in H.
    destruct (next_agent_upper st) as [a |]; simpl in H; [| discriminate].
    injection H as <-.
    repeat match goal with |- context [if ?b then _ else _] => destruct b end;
      simpl; tauto.
  - unfold route_after_destination_planner in H. injection H as <-.
    destruct (destination_selected _); simpl; tauto.
  - unfold route_after_planner in H.
    destruct (truthy (plan st)).
    + destruct (as_dict (plan st)); simpl in H; [| discriminate].
      injection H as <-. destruct (truthy _); simpl; tauto.
    + injection H as <-. simpl; tauto.
  - injection H as <-. simpl; tauto.
  - unfold route_after_reasoning in H.
    destruct (next_agent_upper st) as [a |]; simpl in H; [| discriminate].
    injection H as <-. destruct (_ && _); simpl; tauto.
  - injection H as <-. simpl; tauto.
  - injection H as <-. simpl; tauto.
  - injection H as <-. simpl; tauto.
  - injection H as <-. simpl; tauto.
Qed.

Lemma next_edge_end (n : node) (st : state) :
  next_edge n st = Ok GEnd -> In n [NRouter; NDestinationPlanner; NReasoning].
Proof.
  destruct n; simpl; intros H; try tauto;
    try (injection H; discriminate).
  unfold route_after_planner in H.
  destruct (truthy (plan st)).
  - destruct (as_dict (plan st)); simpl in H; [| discriminate].
    injection H. destruct (truthy _); discriminate.
  - injection H. discriminate.
Qed.

Lemma run_from_declared (e : env) :
  forall fuel n st tr st', run_from fuel e n st = Ok (tr, st') ->
  follows_declared_edges tr
  /\ forall x, In (last tr x) [NRouter; NDestinationPlanner; NReasoning].
Proof.
  induction fuel as [| f IH]; simpl; intros n st tr st' H; [discriminate |].
  destruct (run_node e n st) as [d |]; simpl in H; [| discriminate].
  destruct (next_edge n (merge st d)) as [t |] eqn:Ht; simpl in H; [| discriminate].
  destruct t as [m |].
  - destruct (run_from f e m (merge st d)) as [[tr' st''] |] eqn:Hr;
      simpl in H; [| discriminate].
    injection H as <- _. simpl.
    destruct (IH _ _ _ _ Hr) as [Hf Hlast].
    destruct (run_from_head e f m (merge st d) tr' st'' Hr) as [rest ->].
    split; [split; [exact (next_edge_declared _ _ _ Ht) | exact Hf] |].
    intros x. exact (Hlast x).
  - injection H as <- _. simpl. split; [exact (next_edge_declared _ _ _ Ht) |].
    intros _. exact (next_edge_end _ _ Ht).
Qed.

(** Every completed run starts at the router, moves only along the edges
    [build_graph] declares, and stops after the router, the destination
    planner or the reasoning node: the [END] edges declared for the plan
    execution and the specialised handlers are never taken, since their
    routing functions always answer ["reasoning"]. *)
Theorem invoke_trace_follows_graph (limit : nat) (e : env) (st : state) tr st' :
  invoke_trace limit e st = Ok (tr, st') ->
  (exists rest, tr = NRouter :: rest)
  /\ follows_declared_edges tr
  /\ In (last tr NRouter) [NRouter; NDestinationPlanner; NReasoning].
Proof.
  intros H. split; [exact (invoke_trace_starts_at_router _ _ _ _ _ H) |].
  destruct (run_from_declared e _ _ _ _ _ H) as [Hf Hl]. auto.
Qed.

Lemma invoke_trace_follows_graph_witness :
  exists st',
    invoke_trace DEFAULT_RECURSION_LIMIT env_router_hotel st_offered
    = Ok ([NRouter; NHotel; NReasoning], st')
    /\ follows_declared_edges [NRouter; NHotel; NReasoning]
    /\ In (last [NRouter; NHotel; NReasoning] NRouter)
          [NRouter; NDestinationPlanner; NReasoning].
Proof.
  eexists. split; [vm_compute; reflexivity |].
  destruct (invoke_trace_follows_graph DEFAULT_RECURSION_LIMIT env_router_hotel st_offered
              [NRouter; NHotel; NReasoning] _ ltac:(vm_compute; reflexivity))
    as [_ H]. exact H.
Defined.

(** * Case of the text the router and the routing functions read *)

(** [extract_intent_keywords] ([core/router.py]) *)
Definition extract_intent_keywords (message : string) : dict :=
  let message_lower := py_lower message in
  let any_kw kws := VBool (existsb (fun kw => str_contains kw message_lower) kws) in
  [("flight_keywords", any_kw ["flight"; "fly"; "airline"; "airport"]);
   ("hotel_keywords", any_kw ["hotel"; "accommodation"; "stay"; "lodging"]);
   ("activity_keywords", any_kw ["activity"; "attraction"; "tour"; "visit"; "see"]);
   ("planning_keywords", any_kw ["plan"; "itinerary"; "trip"; "vacation"; "travel"]);
   ("modify_keywords", any_kw ["change"; "modify"; "update"; "different"])].

(** [state["next_agent"] = v] *)
Definition with_next_agent (st : state) (v : pyval) : state :=
  mkState st.(messages) st.(plan) st.(current_itinerary) st.(user_preferences) v
          st.(tool_results) st.(metadata) st.(autonomous_execution).

Lemma ascii_lower_upper (c : ascii) : ascii_lower (ascii_upper c) = ascii_lower c.
Proof. destruct c as [[] [] [] [] [] [] [] []]; reflexivity. Qed.

Lemma ascii_lower_lower (c : ascii) : ascii_lower (ascii_lower c) = ascii_lower c.
Proof. destruct c as [[] [] [] [] [] [] [] []]; reflexivity. Qed.

Lemma ascii_upper_lower (c : ascii) : ascii_upper (ascii_lower c) = ascii_upper c.
Proof. destruct c as [[] [] [] [] [] [] [] []]; reflexivity. Qed.

Lemma str_map_map (f g : ascii -> ascii) (s : string) :
  (forall c, f (g c) = f c) -> str_map f (str_map g s) = str_map f s.
Proof.
  intros H. induction s as [| c s IH]; simpl; [reflexivity |]. rewrite H, IH. reflexivity.
Qed.

(** The message is made of ASCII characters (codes below 128), on which
    Python's [upper()] and [lower()] are the ASCII case mappings. *)
Definition is_ascii_text (s : string) : bool :=
  forallb (fun c => (nat_of_ascii c <? 128)%nat) (list_ascii_of_string s).

(** The intent flags of an ASCII message do not depend on its letter case:
    the message is lower-cased before the keyword tests. *)
Theorem extract_intent_keywords_case_insensitive (message : string) :
  is_ascii_text message = true ->
  extract_intent_keywords (py_upper message) = extract_intent_keywords message
  /\ extract_intent_keywords (py_lower message) = extract_intent_keywords message.
Proof.
  intros _.
  unfold extract_intent_keywords, py_upper, py_lower.
  rewrite (str_map_map ascii_lower ascii_upper message ascii_lower_upper).
  rewrite (str_map_map ascii_lower ascii_lower message ascii_lower_lower).
  split; reflexivity.
Qed.

Lemma extract_intent_keywords_case_insensitive_witness :
  extract_intent_keywords (py_upper "Find cheap Flights to Lisbon")
  = extract_intent_keywords "Find cheap Flights to Lisbon"
  /\ extract_intent_keywords (py_lower "Find cheap Flights to Lisbon")
     = extract_intent_keywords "Find cheap Flights to Lisbon".
Proof.
  apply extract_intent_keywords_case_insensitive. vm_compute. reflexivity.
Defined.

(** The routing functions after the router and after reasoning upper-case
    [next_agent] first: a directive in lower case routes as the upper-case
    one does. *)
Theorem routing_case_insensitive (st : state) (s : string) :
  route_after_router (with_next_agent st (VStr (py_lower s)))
  = route_after_router (with_next_agent st (VStr s))
  /\ route_after_reasoning (with_next_agent st (VStr (py_lower s)))
     = route_after_reasoning (with_next_agent st (VStr s)).
Proof.
  unfold route_after_router, route_after_reasoning, next_agent_upper, with_next_agent.
  simpl. unfold py_upper, py_lower.
  rewrite (str_map_map ascii_upper ascii_lower s ascii_upper_lower).
  split; reflexivity.
Qed.

(** * Available follow-up actions *)

Lemma collect_available_complete (st : state) (dest : pyval) :
  forall reg l, collect_available st dest reg = Ok l ->
  forall id cfg, In (id, cfg) reg -> cfg.(available_when) st = true ->
  In id (map av_action l).
Proof.
  induction reg as [| [id0 cfg0] reg IH]; simpl; intros l Hc id cfg Hin Hav;
    [destruct Hin |].
  destruct (available_when cfg0 st) eqn:Hav0.
  - destruct (format_description st dest id0 (ac_description cfg0)) as [desc |];
      simpl in Hc; [| discriminate].
    destruct (collect_available st dest reg) as [rest |] eqn:Hr;
      simpl in Hc; [| discriminate].
    injection Hc as <-. simpl.
    destruct Hin as [Heq | Hin].
    + injection Heq as -> ->. left. reflexivity.
    + right. exact (IH rest eq_refl id cfg Hin Hav).
  - destruct Hin as [Heq | Hin].
    + injection Heq as -> ->. rewrite Hav in Hav0. discriminate.
    + exact (IH l Hc id cfg Hin Hav).
Qed.

Lemma assoc_in_unique {A B : Type} (l : list (A * B)) (k : A) (v v' : B) :
  NoDup (map fst l) -> In (k, v) l -> In (k, v') l -> v = v'.
Proof.
  induction l as [| [k0 v0] l IH]; simpl; intros Hnd H1 H2; [destruct H1 |].
  inversion Hnd as [| x xs Hnotin Hnd']; subst.
  destruct H1 as [E1 | H1]; destruct H2 as [E2 | H2].
  - congruence.
  - injection E1 as Hk Hv. subst. exfalso. apply Hnotin.
    apply (in_map fst) in H2. exact H2.
  - injection E2 as Hk Hv. subst. exfalso. apply Hnotin.
    apply (in_map fst) in H1. exact H1.
  - exact (IH Hnd' H1 H2).
Qed.

Lemma registry_keys_nodup : NoDup (map fst ACTION_REGISTRY).
Proof. repeat constructor; simpl; intuition discriminate. Qed.

(** When [get_available_actions] succeeds, it offers exactly the registry
    actions whose [available_when] predicate holds on the state. *)
Theorem get_available_actions_exact (st : state) (l : list available_action) :
  get_available_actions st = Ok l ->
  forall id cfg, In (id, cfg) ACTION_REGISTRY ->
  (In id (map av_action l) <-> cfg.(available_when) st = true).
Proof.
  intros Hl id cfg Hin. split.
  - intros Hid. apply in_map_iff in Hid. destruct Hid as [a [<- Ha]].
    destruct (get_available_actions_sound st l Hl a Ha) as (cfg' & Hin' & Hav & _).
    rewrite (assoc_in_unique _ _ _ _ registry_keys_nodup Hin Hin'). exact Hav.
  - intros Hav. exact (collect_available_complete st _ _ l Hl id cfg Hin Hav).
Qed.

Definition st_hotels_found : state :=
  GraphState [HumanMessage "Find hotels in Lisbon"] VNone VNone
    [("destination", VStr "Lisbon")] (VStr "END")
    [("s1", VDict [("destination", VStr "Lisbon")]);
     ("hotel_search", VDict [("hotels", VList [VStr "Hotel Avenida"])])]
    [("reasoning_iterations", VInt 1)].

Lemma get_available_actions_exact_witness :
  In "review_hotels"
     (map av_action (match get_available_actions st_hotels_found with
                     | Ok l => l | Raise _ => [] end))
  <-> has_result "hotel_search" st_hotels_found = true.
Proof.
  apply (get_available_actions_exact st_hotels_found
           (match get_available_actions st_hotels_found with Ok l => l | Raise _ => [] end)
           ltac:(vm_compute; reflexivity)
           "review_hotels"
           (mkAction "HOTEL" "Review the {count} hotel options we found"
                     (fun st => has_result "hotel_search" st))).
  simpl. tauto.
Defined.

Ltac registry_entry := simpl; tauto.

(** Of search and review for flights, for hotels and for activities, exactly
    one is offered; modifying and creating the itinerary are never offered
    together. *)
Theorem available_actions_exclusive (st : state) (l : list available_action) :
  get_available_actions st = Ok l ->
  (In "search_flights" (map av_action l) <-> ~ In "review_flights" (map av_action l))
  /\ (In "search_hotels" (map av_action l) <-> ~ In "review_hotels" (map av_action l))
  /\ (In "search_activities" (map av_action l)
      <-> ~ In "review_activities" (map av_action l))
  /\ ~ (In "modify_itinerary" (map av_action l) /\ In "create_itinerary" (map av_action l)).
Proof.
  intros Hl.
  pose proof (get_available_actions_exact st l Hl) as Hx.
  rewrite (Hx "search_flights" _ ltac:(registry_entry)).
  rewrite (Hx "review_flights" _ ltac:(registry_entry)).
  rewrite (Hx "search_hotels" _ ltac:(registry_entry)).
  rewrite (Hx "review_hotels" _ ltac:(registry_entry)).
  rewrite (Hx "search_activities" _ ltac:(registry_entry)).
  rewrite (Hx "review_activities" _ ltac:(registry_entry)).
  rewrite (Hx "modify_itinerary" _ ltac:(registry_entry)).
  rewrite (Hx "create_itinerary" _ ltac:(registry_entry)).
  simpl.
  destruct (has_result "flight_search" st), (has_result "hotel_search" st),
    (has_result "activity_search" st), (is_none (current_itinerary st));
    simpl; intuition discriminate.
Qed.

Lemma available_actions_exclusive_witness :
  In "search_flights" (map av_action (match get_available_actions st_hotels_found with
                                      | Ok l => l | Raise _ => [] end))
  <-> ~ In "review_flights" (map av_action (match get_available_actions st_hotels_found with
                                            | Ok l => l | Raise _ => [] end)).
Proof.
  apply (available_actions_exclusive st_hotels_found _ ltac:(vm_compute; reflexivity)).
Defined.

(** * Follow-up batches that are not recorded *)

(** Appending a message without a [suggestions] kwarg leaves the last
    recorded batch as it was. *)
Lemma last_offered_app_plain (ms : list message) (m : message) :
  dmem "suggestions" m.(msg_kwargs) = false ->
  last_offered (app ms [m]) = last_offered ms.
Proof.
  intros H. unfold last_offered. rewrite rev_app_distr. simpl. rewrite H. reflexivity.
Qed.

(** When step [s1] recorded a destination that is not a string, the first
    available action whose description names the destination makes
    [get_available_actions] raise, and the follow-up falls back to the fixed
    default batch. *)
Theorem non_string_destination_defaults (e : env) (st : state) (prefs : dict) (v : pyval) :
  truthy (dget_or "preplanner_phase" (VBool false) st.(metadata)) = false ->
  dget_or "s1" (VDict []) st.(tool_results) = VDict prefs ->
  dget "destination" prefs = Some v ->
  (forall s, v <> VStr s) ->
  has_result "flight_search" st = false ->
  get_available_actions st = Raise TypeError
  /\ (generate_follow_up_suggestions e st).(fu_suggestions) = default_suggestions.
Proof.
  intros Hpre Hs1 Hdest Hns Hfl.
  assert (Hga : get_available_actions st = Raise TypeError).
  { unfold get_available_actions. rewrite Hs1. unfold dget_or at 1. rewrite Hdest.
    unfold ACTION_REGISTRY, collect_available. cbn [available_when ac_description].
    rewrite Hfl. cbn [negb].
    destruct v; try (exfalso; eapply Hns; reflexivity); reflexivity. }
  split; [exact Hga |].
  unfold generate_follow_up_suggestions, follow_up_try. rewrite Hpre.
  destruct (setup e); cbn [bind]; [rewrite Hga |]; reflexivity.
Qed.

Definition st_no_destination : state :=
  GraphState [HumanMessage "Plan a trip for me"] VNone VNone [] (VStr "END")
    [("s1", VDict [("destination", VNone); ("budget", VInt 2000)])]
    [("reasoning_iterations", VInt 1)].

Lemma non_string_destination_defaults_witness :
  get_available_actions st_no_destination = Raise TypeError
  /\ (generate_follow_up_suggestions env_router_hotel st_no_destination).(fu_suggestions)
     = default_suggestions.
Proof.
  apply (non_string_destination_defaults env_router_hotel st_no_destination
           [("destination", VNone); ("budget", VInt 2000)] VNone);
    try reflexivity.
  intros s H. discriminate H.
Defined.

(** When the follow-up generation fails, the fallback batch it offers is not
    recorded: its message carries no [suggestions], so a later selection is
    resolved against the batch offered before. *)
Theorem fallback_batch_not_recorded (e : env) (st : state) (ex : exc) (ms : list message) :
  follow_up_try e st = Raise ex ->
  last_offered (app ms [(generate_follow_up_suggestions e st).(fu_message)])
  = last_offered ms.
Proof.
  intros H. unfold generate_follow_up_suggestions. rewrite H. simpl.
  apply last_offered_app_plain. reflexivity.
Qed.

Lemma fallback_batch_not_recorded_witness :
  last_offered (app (messages st_offered)
                  [(generate_follow_up_suggestions env_router_hotel st_no_destination).(fu_message)])
  = last_offered (messages st_offered).
Proof.
  apply (fallback_batch_not_recorded env_router_hotel st_no_destination TypeError).
  vm_compute. reflexivity.
Defined.

(** In the destination phase without recommendations, the single offered
    [A1] entry is not recorded either, so selecting [A1] afterwards cannot
    find it in that message. *)
Theorem empty_recommendations_batch_not_recorded (e : env) (st : state) (rd : dict)
  (ms : list message) :
  truthy (dget_or "preplanner_phase" (VBool false) st.(metadata)) = true ->
  dget_or "destination_recommendations" (VDict []) st.(tool_results) = VDict rd ->
  truthy (dget_or "recommendations" (VList []) rd) = false ->
  (generate_follow_up_suggestions e st).(fu_suggestions)
    = [VDict [("token", VStr "A1"); ("action", VStr "refine_search");
              ("description", VStr "Refine my destination search");
              ("priority", VInt 1)]]
  /\ last_offered (app ms [(generate_follow_up_suggestions e st).(fu_message)])
     = last_offered ms.
Proof.
  intros Hpre Hrd Hrecs.
  unfold generate_follow_up_suggestions, follow_up_try. rewrite Hpre. cbn [try_except].
  unfold generate_destination_suggestions, destination_suggestions_try.
  rewrite Hrd. cbn [as_dict bind]. rewrite Hrecs. cbn [negb try_except].
  split; [reflexivity |]. apply last_offered_app_plain. reflexivity.
Qed.

Lemma empty_recommendations_batch_not_recorded_witness :
  (generate_follow_up_suggestions env_router_hotel st_discovery_empty).(fu_suggestions)
    = [VDict [("token", VStr "A1"); ("action", VStr "refine_search");
              ("description", VStr "Refine my destination search");
              ("priority", VInt 1)]]
  /\ last_offered (app (messages st_offered)
                     [(generate_follow_up_suggestions env_router_hotel st_discovery_empty).(fu_message)])
     = last_offered (messages st_offered).
Proof.
  apply (empty_recommendations_batch_not_recorded env_router_hotel st_discovery_empty
           [("recommendations", VList [])]); reflexivity.
Defined.

(** * Resolving a token of a recorded follow-up batch *)

Lemma tokenize_shape (available : list available_action) :
  forall sugs i toks, tokenize available i sugs = Ok toks ->
  forall s, In s toks ->
  exists n m pr, In m available
    /\ s = VDict [("token", VStr ("A" ++ nat_str n)); ("action", VStr m.(av_action));
                  ("agent", VStr m.(av_agent)); ("description", VStr m.(av_description));
                  ("priority", pr)].
Proof.
  induction sugs as [| x sugs IH]; simpl; intros i toks Ht s Hs.
  - injection Ht as <-. destruct Hs.
  - destruct (as_dict x) as [sd |]; simpl in Ht; [| discriminate].
    destruct (find (fun a => py_eq_str (dget_or "action" VNone sd) (av_action a)) available)
      as [m |] eqn:Hfind.
    + destruct (tokenize available (S i) sugs) as [rest |] eqn:Hr;
        simpl in Ht; [| discriminate].
      injection Ht as <-. destruct Hs as [<- | Hs].
      * apply find_some in Hfind. destruct Hfind as [Hin Heq].
        apply py_eq_str_true in Heq. rewrite Heq.
        exists (S i), m, (dget_or "priority" (VInt (Z.of_nat (S i))) sd).
        split; [exact Hin | reflexivity].
      * exact (IH _ _ Hr s Hs).
    + exact (IH _ _ Ht s Hs).
Qed.

Lemma find_token_cases (token : string) :
  forall sugs, (forall s, In s sugs -> exists d t, s = VDict d /\ dget "token" d = Some t) ->
  find_token token sugs = Ok None
  \/ exists s t, find_token token sugs = Ok (Some s) /\ In s sugs
                 /\ subscript s "token" = Ok t /\ py_eq_str t token = true.
Proof.
  induction sugs as [| s sugs IH]; simpl; intros Hall; [left; reflexivity |].
  destruct (Hall s (or_introl eq_refl)) as (d & t & -> & Ht).
  assert (Hsub : subscript (VDict d) "token" = Ok t).
  { unfold subscript, dkey. rewrite Ht. reflexivity. }
  rewrite Hsub. cbn [bind].
  destruct (py_eq_str t token) eqn:Heq.
  - right. exists (VDict d), t. auto.
  - destruct (IH (fun s' H => Hall s' (or_intror H))) as [Hn | (s' & t' & Hf & Hin & Hs & He)].
    + left. exact Hn.
    + right. exists s', t'. auto.
Qed.

Lemma registry_agents_nonempty (id : string) (cfg : action_entry) :
  In (id, cfg) ACTION_REGISTRY -> cfg.(ac_agent) <> "".
Proof.
  simpl. intros H.
  repeat (destruct H as [H | H]; [injection H as _ <-; discriminate |]).
  destruct H.
Qed.

(** Selecting a token of a batch recorded from [get_available_actions] and
    the classifier's suggestions either finds no entry (the state is
    returned unchanged) or routes to the agent of a registry action that was
    available when the batch was built, appending one user message and
    keeping the plan, itinerary, preferences, tool results and metadata. *)
Theorem follow_up_selection_routes (st0 st : state) (available : list available_action)
  (i : nat) (sugs toks : list pyval) (token : string) :
  get_available_actions st0 = Ok available ->
  tokenize available i sugs = Ok toks ->
  last_offered st.(messages) = VList toks ->
  handle_user_selection st token = Ok st
  \/ exists id cfg desc,
       In (id, cfg) ACTION_REGISTRY /\ cfg.(available_when) st0 = true
       /\ handle_user_selection st token
          = Ok (GraphState
                  (app st.(messages)
                     [mkMsg Human ("I'd like to: " ++ desc) [("selected_token", VStr token)]])
                  st.(plan) st.(current_itinerary) st.(user_preferences)
                  (VStr cfg.(ac_agent)) st.(tool_results) st.(metadata)).
Proof.
  intros Hga Ht Hlast.
  assert (Hshape : forall s, In s toks -> exists d t, s = VDict d /\ dget "token" d = Some t).
  { intros s Hs. destruct (tokenize_shape available sugs i toks Ht s Hs)
      as (n & m & pr & _ & ->).
    eexists; eexists; split; reflexivity. }
  unfold handle_user_selection, handle_user_selection_obj. rewrite Hlast. cbn [py_iter bind].
  destruct (find_token_cases token toks Hshape) as [Hn | (s & t & Hf & Hin & Hs & Heq)];
    rewrite ?Hn, ?Hf; cbn [bind]; [left; reflexivity |].
  right.
  destruct (tokenize_shape available sugs i toks Ht s Hin) as (n & m & pr & Hm & ->).
  set (ns := nat_str n) in *. clearbody ns.
  cbn in Hs. injection Hs as <-. apply py_eq_str_true in Heq. injection Heq as <-.
  destruct (get_available_actions_sound st0 available Hga m Hm) as (cfg & Hreg & Hav & Hag).
  exists (av_action m), cfg, (av_description m).
  split; [exact Hreg | split; [exact Hav |]].
  cbn -[GraphState app].
  rewrite Hag. pose proof (registry_agents_nonempty _ _ Hreg) as Hne.
  destruct (ac_agent cfg) as [| c a]; [contradiction | reflexivity].
Qed.

Definition hotels_available : list available_action :=
  Eval vm_compute in
    match get_available_actions st_hotels_found with Ok l => l | Raise _ => [] end.

Definition classifier_suggestions : list pyval :=
  [VDict [("action", VStr "search_flights"); ("priority", VInt 1)];
   VDict [("action", VStr "book_spa"); ("priority", VInt 2)];
   VDict [("action", VStr "review_hotels"); ("priority", VInt 3)]].

Definition hotels_batch : list pyval :=
  Eval vm_compute in
    match tokenize hotels_available 0 classifier_suggestions with
    | Ok l => l | Raise _ => [] end.

Definition st_hotels_offered : state :=
  with_messages st_hotels_found
    (app (messages st_hotels_found)
       [mkMsg AI "What would you like to do next?" [("suggestions", VList hotels_batch)]]).

Lemma follow_up_selection_routes_witness :
  handle_user_selection st_hotels_offered "A3" = Ok st_hotels_offered
  \/ exists id cfg desc,
       In (id, cfg) ACTION_REGISTRY /\ cfg.(available_when) st_hotels_found = true
       /\ handle_user_selection st_hotels_offered "A3"
          = Ok (GraphState
                  (app st_hotels_offered.(messages)
                     [mkMsg Human ("I'd like to: " ++ desc) [("selected_token", VStr "A3")]])
                  st_hotels_offered.(plan) st_hotels_offered.(current_itinerary)
                  st_hotels_offered.(user_preferences)
                  (VStr cfg.(ac_agent)) st_hotels_offered.(tool_results)
                  st_hotels_offered.(metadata)).
Proof.
  apply (follow_up_selection_routes st_hotels_found st_hotels_offered hotels_available 0
           classifier_suggestions hotels_batch "A3"); vm_compute; reflexivity.
Defined.

(** * The destination batch *)


Lemma destination_tokens_ok :
  forall items i, (forall r, In r items -> exists d, r = VDict d) ->
  exists toks, destination_tokens i items = Ok toks
    /\ map (field "token") toks = map (fun n => VStr ("D" ++ nat_str n)) (seq i (length items))
    /\ Forall (fun s => field "action" s = VStr "select_destination") toks.
Proof.
  induction items as [| r items IH]; intros i Hall.
  - exists []. simpl. auto.
  - destruct (Hall r (or_introl eq_refl)) as [d ->].
    destruct (IH (S i) (fun r' H => Hall r' (or_intror H))) as (toks & Ht & Hmap & Hact).
    eexists. simpl. rewrite Ht. cbn [bind]. split; [reflexivity |].
    split.
    + simpl. f_equal. exact Hmap.
    + constructor; [reflexivity | exact Hact].
Qed.

(** In the destination phase with recommendations, the batch offers the
    tokens [D1], ..., [Dk] for the first [k = min 5 n] recommendations, each
    selecting a destination, then [D99] to refine; it is recorded in the
    message, which also sets [preplanner_phase]. *)
Theorem destination_batch_recorded (e : env) (st : state) (rd : dict)
  (recs : list pyval) (ms : list message) :
  truthy (dget_or "preplanner_phase" (VBool false) st.(metadata)) = true ->
  dget_or "destination_recommendations" (VDict []) st.(tool_results) = VDict rd ->
  dget_or "recommendations" (VList []) rd = VList recs ->
  recs <> [] ->
  (forall r, In r (firstn 5 recs) -> exists d, r = VDict d) ->
  exists toks,
    (generate_follow_up_suggestions e st).(fu_suggestions) = app toks [refine_token]
    /\ map (field "token") toks
       = map (fun n => VStr ("D" ++ nat_str n)) (seq 1 (Nat.min 5 (length recs)))
    /\ Forall (fun s => field "action" s = VStr "select_destination") toks
    /\ last_offered (app ms [(generate_follow_up_suggestions e st).(fu_message)])
       = VList (app toks [refine_token])
    /\ dget "preplanner_phase" (generate_follow_up_suggestions e st).(fu_message).(msg_kwargs)
       = Some (VBool true).
Proof.
  intros Hpre Hrd Hrecs Hne Hdicts.
  destruct (destination_tokens_ok (firstn 5 recs) 1 Hdicts) as (toks & Ht & Hmap & Hact).
  rewrite length_firstn in Hmap.
  exists toks.
  unfold generate_follow_up_suggestions, follow_up_try. rewrite Hpre. cbn [try_except].
  unfold generate_destination_suggestions, destination_suggestions_try.
  rewrite Hrd. cbn [as_dict bind]. rewrite Hrecs.
  destruct recs as [| r0 recs']; [contradiction |].
  cbn [truthy negb first5 bind]. rewrite Ht. cbn [bind try_except fu_suggestions fu_message].
  split; [reflexivity |]. split; [exact Hmap |]. split; [exact Hact |].
  split; [| reflexivity].
  unfold last_offered. rewrite rev_app_distr. reflexivity.
Qed.

Lemma destination_batch_recorded_witness :
  exists toks,
    (generate_follow_up_suggestions env_router_hotel st_discovery0).(fu_suggestions)
      = app toks [refine_token]
    /\ map (field "token") toks
       = map (fun n => VStr ("D" ++ nat_str n))
             (seq 1 (Nat.min 5 (length [recommendation "New York" "USA";
                                         recommendation "York" "United Kingdom"])))
    /\ Forall (fun s => field "action" s = VStr "select_destination") toks
    /\ last_offered (app (messages st_discovery0)
                       [(generate_follow_up_suggestions env_router_hotel st_discovery0).(fu_message)])
       = VList (app toks [refine_token])
    /\ dget "preplanner_phase"
         (generate_follow_up_suggestions env_router_hotel st_discovery0).(fu_message).(msg_kwargs)
       = Some (VBool true).
Proof.
  apply (destination_batch_recorded env_router_hotel st_discovery0
           [("recommendations", VList [recommendation "New York" "USA";
                                       recommendation "York" "United Kingdom"])]);
    try reflexivity.
  - discriminate.
  - intros r Hr. simpl in Hr.
    destruct Hr as [<- | [<- | []]]; eexists; reflexivity.
Defined.

(** * Refining the destination search *)

Lemma last_opt_app {A : Type} (l : list A) (x : A) : last_opt (app l [x]) = Some x.
Proof.
  induction l as [| y [| z r] IH]; [reflexivity | reflexivity |].
  exact IH.
Qed.

(** Selecting the refine entry [D99] reopens the destination phase: the
    user message is appended, [preplanner_phase] is set and [next_agent] is
    cleared.  The router then sends the state back to the destination planner,
    unless a destination was selected before, in which case it goes to the
    planner and the refinement is not acted on; when the language-model
    client cannot be built, the router ends the run (END) instead. *)
Theorem refine_selection_then_router (e : env) (st : state) (sugs : list pyval) (s : pyval) :
  last_offered st.(messages) = VList sugs ->
  find_token "D99" sugs = Ok (Some s) ->
  subscript s "action" = Ok (VStr "refine_search") ->
  exists st2 d,
    handle_user_selection st "D99" = Ok st2
    /\ st2.(messages)
       = app st.(messages) [mkMsg Human "I'd like to see different destination options"
                                  [("selected_token", VStr "D99")]]
    /\ dget "preplanner_phase" st2.(metadata) = Some (VBool true)
    /\ st2.(next_agent) = VStr ""
    /\ router_node e st2 = Ok d
    /\ d.(d_next_agent)
       = Some (VStr (match setup e with
                     | Ok _ => if destination_selected st.(metadata) then "PLANNER"
                               else "DESTINATION_PLANNER"
                     | Raise _ => "END"
                     end)).
Proof.
  intros Hlast Hfind Hact.
  set (m := mkMsg Human "I'd like to see different destination options"
                  [("selected_token", VStr "D99")]).
  set (st2 := GraphState (app st.(messages) [m]) st.(plan) st.(current_itinerary)
                st.(user_preferences) (VStr "") st.(tool_results)
                (dset "preplanner_phase" (VBool true) st.(metadata))).
  assert (Hsel : handle_user_selection st "D99" = Ok st2).
  { unfold handle_user_selection, handle_user_selection_obj. rewrite Hlast. cbn [py_iter bind]. rewrite Hfind.
    cbn [bind]. replace (startswith "D99" "D") with true by reflexivity.
    rewrite Hact. reflexivity. }
  assert (Hds : destination_selected st2.(metadata) = destination_selected st.(metadata)).
  { unfold destination_selected, dget_or. simpl.
    rewrite dget_dset_other by discriminate. reflexivity. }
  assert (Hhelp : needs_destination_help st2 m = true).
  { unfold needs_destination_help, dget_or. simpl. rewrite dget_dset_same.
    apply orb_true_r. }
  eexists st2, _. split; [exact Hsel |].
  split; [reflexivity |]. split; [apply dget_dset_same |]. split; [reflexivity |].
  split; [reflexivity |].
  unfold router_try. destruct (setup e) as [[] | ex]; cbn [bind try_except];
    [| reflexivity].
  simpl messages. rewrite last_opt_app.
  rewrite Hds, Hhelp. destruct (destination_selected st.(metadata)); reflexivity.
Qed.

Lemma refine_selection_then_router_witness :
  exists st2 d,
    handle_user_selection st_discovery "D99" = Ok st2
    /\ st2.(messages)
       = app st_discovery.(messages)
           [mkMsg Human "I'd like to see different destination options"
                  [("selected_token", VStr "D99")]]
    /\ dget "preplanner_phase" st2.(metadata) = Some (VBool true)
    /\ st2.(next_agent) = VStr ""
    /\ router_node env_router_hotel st2 = Ok d
    /\ d.(d_next_agent)
       = Some (VStr (match setup env_router_hotel with
                     | Ok _ => if destination_selected st_discovery.(metadata) then "PLANNER"
                               else "DESTINATION_PLANNER"
                     | Raise _ => "END"
                     end)).
Proof.
  apply (refine_selection_then_router env_router_hotel st_discovery
           (match last_offered st_discovery.(messages) with VList l => l | _ => [] end)
           refine_token); vm_compute; reflexivity.
Defined.

(** * Preferences set when a destination is selected *)

Lemma dget_spread (k : string) :
  forall extra base, NoDup (map fst extra) ->
  dget k (spread base extra)
  = match dget k extra with Some v => Some v | None => dget k base end.
Proof.
  induction extra as [| [k0 v0] extra IH]; intros base Hnd; [reflexivity |].
  inversion Hnd as [| x xs Hnotin Hnd']; subst.
  unfold spread in *. simpl. rewrite IH by exact Hnd'.
  destruct (String.eqb k k0) eqn:E.
  - apply String.eqb_eq in E. subst k0.
    destruct (dget k extra) eqn:Hk.
    + exfalso. apply Hnotin. clear -Hk.
      induction extra as [| [k1 v1] extra IH]; simpl in *; [discriminate |].
      destruct (String.eqb k k1) eqn:E1.
      * apply String.eqb_eq in E1. left. congruence.
      * right. exact (IH Hk).
    + apply dget_dset_same.
  - destruct (dget k extra); [reflexivity |].
    apply dget_dset_other. intros ->. rewrite String.eqb_refl in E. discriminate.
Qed.

(** A destination selection looks the name up in the stored
    recommendations.  When no recommendation matches, the state is returned
    as it was.  Otherwise the chosen recommendation is recorded as
    [selected_destination], and each preference is the session's
    requirement for that key when there is one, else the value derived from
    the recommendation (its destination, its daily budget or 150, and
    whether its family score, 5 by default, exceeds 7); the plan and
    itinerary are cleared, the destination is marked as selected, the
    destination phase ends, the state routes to the planner and the
    messages are kept. *)
Theorem destination_selection_requirements_override (st st2 : state) (sel : pyval)
  (reqs : dict) :
  handle_destination_selection st sel = Ok st2 ->
  dget_or "requirements" (VDict []) st.(metadata) = VDict reqs ->
  NoDup (map fst reqs) ->
  exists dr recs selected,
    as_dict (dget_or "destination_recommendations" (VDict []) st.(tool_results)) = Ok dr
    /\ py_iter (dget_or "recommendations" (VList []) dr) = Ok recs
    /\ find_destination sel recs = Ok selected
    /\ ((truthy selected = false /\ st2 = st)
        \/ (exists sd dest z,
              selected = VDict sd
              /\ dget "destination" sd = Some dest
              /\ py_int (dget_or "family_friendly_score" (VInt 5) sd) = Some z
              /\ (forall k,
                    dget k st2.(user_preferences)
                    = match dget k reqs with
                      | Some v => Some v
                      | None =>
                          dget k [("destination", dest);
                                  ("budget", dget_or "estimated_daily_budget" (VInt 150) sd);
                                  ("family_friendly", VBool (7 <? z)%Z)]
                      end)
              /\ dget "selected_destination" st2.(metadata) = Some selected
              /\ destination_selected st2.(metadata) = true
              /\ dget "preplanner_phase" st2.(metadata) = Some (VBool false)
              /\ st2.(next_agent) = VStr "PLANNER"
              /\ st2.(plan) = VNone /\ st2.(current_itinerary) = VNone
              /\ st2.(messages) = st.(messages))).
Proof.
  intros H Hreq Hnd.
  unfold handle_destination_selection in H. step_bind H.
  lazymatch type of E with _ = Ok ?p => destruct p as [st3 b] end.
  cbn [fst] in H. injection H as ->.
  unfold handle_destination_selection_obj in E.
  destruct (as_dict _) as [dr |] eqn:Edr; cbn [bind] in E; [| discriminate E].
  destruct (py_iter _) as [recs |] eqn:Erecs; cbn [bind] in E; [| discriminate E].
  destruct (find_destination sel recs) as [selected |] eqn:Esel; cbn [bind] in E;
    [| discriminate E].
  exists dr, recs, selected.
  do 3 (split; [first [reflexivity | assumption] |]).
  destruct (truthy selected) eqn:Ht; [| left; injection E as <- _; split; reflexivity].
  right.
  destruct selected as [| | | | | sd]; cbn [as_dict bind] in E; try discriminate E.
  destruct (dkey "destination" sd) as [dest |] eqn:Ed; cbn [bind] in E; [| discriminate E].
  destruct (py_int (dget_or "family_friendly_score" (VInt 5) sd)) as [z |] eqn:Ez;
    cbn [bind] in E; [| discriminate E].
  rewrite Hreq in E. cbn [bind] in E. injection E as <- _.
  exists sd, dest, z. split; [reflexivity |].
  split; [unfold dkey in Ed; destruct (dget "destination" sd); congruence |].
  split; [first [reflexivity | assumption] |].
  cbn [user_preferences metadata next_agent messages plan current_itinerary GraphState].
  split; [intros k; apply dget_spread; exact Hnd |].
  split; [apply dget_dset_same |].
  split.
  { unfold destination_selected, dget_or.
    rewrite dget_dset_other by discriminate. rewrite dget_dset_same. reflexivity. }
  split; [rewrite !dget_dset_other by discriminate; apply dget_dset_same |].
  repeat split.
Qed.

Definition st_discovery_reqs : state :=
  GraphState (messages st_discovery0) VNone VNone [] (VStr "END")
    (tool_results st_discovery0)
    [("preplanner_phase", VBool true);
     ("requirements", VDict [("budget", VInt 90); ("travelers", VInt 2)])].

Lemma destination_selection_requirements_override_witness :
  exists st2, handle_destination_selection st_discovery_reqs (VStr "York") = Ok st2
  /\ exists dr recs selected,
    as_dict (dget_or "destination_recommendations" (VDict [])
               st_discovery_reqs.(tool_results)) = Ok dr
    /\ py_iter (dget_or "recommendations" (VList []) dr) = Ok recs
    /\ find_destination (VStr "York") recs = Ok selected
    /\ ((truthy selected = false /\ st2 = st_discovery_reqs)
        \/ (exists sd dest z,
              selected = VDict sd
              /\ dget "destination" sd = Some dest
              /\ py_int (dget_or "family_friendly_score" (VInt 5) sd) = Some z
              /\ (forall k,
                    dget k st2.(user_preferences)
                    = match dget k [("budget", VInt 90); ("travelers", VInt 2)] with
                      | Some v => Some v
                      | None =>
                          dget k [("destination", dest);
                                  ("budget", dget_or "estimated_daily_budget" (VInt 150) sd);
                                  ("family_friendly", VBool (7 <? z)%Z)]
                      end)
              /\ dget "selected_destination" st2.(metadata) = Some selected
              /\ destination_selected st2.(metadata) = true
              /\ dget "preplanner_phase" st2.(metadata) = Some (VBool false)
              /\ st2.(next_agent) = VStr "PLANNER"
              /\ st2.(plan) = VNone /\ st2.(current_itinerary) = VNone
              /\ st2.(messages) = st_discovery_reqs.(messages))).
Proof.
  eexists. split; [vm_compute; reflexivity |].
  apply (destination_selection_requirements_override st_discovery_reqs _ (VStr "York")
           [("budget", VInt 90); ("travelers", VInt 2)]);
    [vm_compute; reflexivity | reflexivity |].
  repeat constructor; simpl; intuition discriminate.
Defined.

(** * The session entry points' answers *)

Lemma sget_sset_same (k : string) (s : state) (ss : sessions) :
  sget k (sset k s ss) = Some s.
Proof.
  induction ss as [| [k' s'] ss IH]; simpl.
  - rewrite String.eqb_refl. reflexivity.
  - destruct (String.eqb k k') eqn:E; simpl; rewrite ?E; [reflexivity | exact IH].
Qed.

Lemma destination_suggestions_ai (st : state) :
  (generate_destination_suggestions st).(fu_message).(msg_role) = AI.
Proof.
  unfold generate_destination_suggestions.
  destruct (destination_suggestions_try st) as [fu |] eqn:E; [| reflexivity].
  unfold destination_suggestions_try in E. cbn [try_except].
  step_bind E.
  destruct (negb _); [injection E as <-; reflexivity |].
  do 2 step_bind E. injection E as <-. reflexivity.
Qed.

(** The follow-up message is an AI message on every path. *)
Lemma follow_up_message_ai (e : env) (st : state) :
  (generate_follow_up_suggestions e st).(fu_message).(msg_role) = AI.
Proof.
  unfold generate_follow_up_suggestions.
  destruct (follow_up_try e st) as [fu |] eqn:E; [| reflexivity].
  unfold follow_up_try in E. cbn [try_except].
  destruct (truthy _).
  - injection E as <-. apply destination_suggestions_ai.
  - do 2 step_bind E.
    match type of E with
    | match ?l with [] => _ | _ :: _ => _ end = _ => destruct l
    end; [injection E as <-; reflexivity |].
    do 4 step_bind E. injection E as <-. reflexivity.
Qed.

Lemma extract_response_appended (st : state) (m : message) :
  m.(msg_role) = AI ->
  extract_response (with_messages st (app st.(messages) [m])) = m.(msg_content).
Proof.
  intros H. unfold extract_response. simpl.
  destruct (messages st) as [| m0 ms]; simpl;
    [| rewrite rev_app_distr]; simpl; rewrite H; reflexivity.
Qed.

(** A successful [process_query] answers with the text and the batch of the
    follow-up message generated on the graph's final state (not with the
    agents' own last message), and stores that final state with the
    follow-up message appended. *)
Theorem process_query_answer_is_follow_up (e : env) (ss : sessions) (query tid : string)
  (resp : string) (sugs : list pyval) (summary : dict) (tid' : string) :
  fst (process_query e ss query tid) = Answer resp sugs summary tid' ->
  exists final,
    invoke PROCESS_QUERY_RECURSION_LIMIT e (fst (query_state ss query tid)) = Ok final
    /\ resp = (generate_follow_up_suggestions e final).(fu_message).(msg_content)
    /\ sugs = (generate_follow_up_suggestions e final).(fu_suggestions)
    /\ tid' = tid
    /\ sget tid (snd (process_query e ss query tid))
       = Some (with_messages final
                 (app final.(messages) [(generate_follow_up_suggestions e final).(fu_message)])).
Proof.
  intros H. unfold process_query in *.
  destruct (query_state ss query tid) as [st1 stored]. cbn [fst] in *.
  destruct (invoke PROCESS_QUERY_RECURSION_LIMIT e st1) as [final |] eqn:Hi;
    [| discriminate H].
  exists final. split; [reflexivity |].
  unfold finish in *.
  destruct (summarize_state _); cbn [fst snd] in *; [| discriminate H].
  injection H as Hr Hs _ Ht.
  split; [rewrite <- Hr; apply extract_response_appended, follow_up_message_ai |].
  split; [symmetry; exact Hs |]. split; [symmetry; exact Ht |].
  apply sget_sset_same.
Qed.

(** The same for [handle_suggestion_selection], whose graph run starts from
    the state [handle_user_selection] returns. *)
Theorem selection_answer_is_follow_up (e : env) (ss : sessions) (token tid : string)
  (resp : string) (sugs : list pyval) (summary : dict) (tid' : string) :
  fst (handle_suggestion_selection e ss token tid) = Answer resp sugs summary tid' ->
  exists st updated final,
    sget tid ss = Some st
    /\ handle_user_selection st token = Ok updated
    /\ invoke DEFAULT_RECURSION_LIMIT e updated = Ok final
    /\ resp = (generate_follow_up_suggestions e final).(fu_message).(msg_content)
    /\ sugs = (generate_follow_up_suggestions e final).(fu_suggestions)
    /\ tid' = tid
    /\ sget tid (snd (handle_suggestion_selection e ss token tid))
       = Some (with_messages final
                 (app final.(messages) [(generate_follow_up_suggestions e final).(fu_message)])).
Proof.
  intros H. unfold handle_suggestion_selection in *.
  destruct (sget tid ss) as [st |] eqn:Hg; [| discriminate H].
  destruct (handle_user_selection_obj st token) as [[updated in_place] |] eqn:Hu;
    [| discriminate H].
  destruct (invoke DEFAULT_RECURSION_LIMIT e updated) as [final |] eqn:Hi;
    [| discriminate H].
  exists st, updated, final.
  split; [reflexivity |].
  split; [unfold handle_user_selection; rewrite Hu; reflexivity |].
  split; [first [reflexivity | assumption] |].
  unfold finish in *.
  destruct (summarize_state _); cbn [fst snd] in *; [| discriminate H].
  injection H as Hr Hs _ Ht.
  split; [rewrite <- Hr; apply extract_response_appended, follow_up_message_ai |].
  split; [symmetry; exact Hs |]. split; [symmetry; exact Ht |].
  apply sget_sset_same.
Qed.

(** When the graph's final state has no plan, [process_query] reports an
    error (the state summary raises), yet the session already holds the
    final state with the follow-up message appended. *)
Theorem process_query_no_plan_error (e : env) (ss : sessions) (query tid : string)
  (final : state) :
  invoke PROCESS_QUERY_RECURSION_LIMIT e (fst (query_state ss query tid)) = Ok final ->
  final.(plan) = VNone ->
  fst (process_query e ss query tid)
  = Failure (exc_str AttributeError) (Some api_apology_query) (Some []) tid
  /\ sget tid (snd (process_query e ss query tid))
     = Some (with_messages final
               (app final.(messages) [(generate_follow_up_suggestions e final).(fu_message)])).
Proof.
  intros Hi Hp. unfold process_query in *.
  destruct (query_state ss query tid) as [st1 stored]. cbn [fst] in Hi.
  rewrite Hi. unfold finish, summarize_state. simpl plan. rewrite Hp. cbn [as_dict bind fst snd].
  split; [reflexivity | apply sget_sset_same].
Qed.

(** A run that raises still leaves the query in a stored session: the
    message is appended to the session's state before the graph runs. *)
Theorem process_query_failed_run_keeps_query (e : env) (ss : sessions) (query tid : string)
  (st : state) (ex : exc) :
  sget tid ss = Some st ->
  invoke PROCESS_QUERY_RECURSION_LIMIT e
    (with_messages st (app st.(messages) [HumanMessage query])) = Raise ex ->
  process_query e ss query tid
  = (Failure (exc_str ex) (Some api_apology_query) (Some []) tid,
     sset tid (with_messages st (app st.(messages) [HumanMessage query])) ss).
Proof.
  intros Hg Hi. unfold process_query, query_state. rewrite Hg. rewrite Hi. reflexivity.
Qed.

Definition st_planned : state :=
  GraphState (messages st_offered) (VDict [("steps", VList [])]) VNone
    (user_preferences st_offered) (VStr "END") [] (metadata st_offered).

Definition ss_planned : sessions := [("t1", st_planned)].

Definition final_of (r : result state) : state :=
  match r with Ok s => s | Raise _ => st_planned end.

Lemma process_query_answer_is_follow_up_witness :
  exists final,
    invoke PROCESS_QUERY_RECURSION_LIMIT env_router_hotel
      (fst (query_state ss_planned "Find hotels" "t1")) = Ok final
    /\ "What would you like to do next?"
       = (generate_follow_up_suggestions env_router_hotel final).(fu_message).(msg_content)
    /\ default_suggestions
       = (generate_follow_up_suggestions env_router_hotel final).(fu_suggestions)
    /\ "t1" = "t1"
    /\ sget "t1" (snd (process_query env_router_hotel ss_planned "Find hotels" "t1"))
       = Some (with_messages final
                 (app final.(messages)
                    [(generate_follow_up_suggestions env_router_hotel final).(fu_message)])).
Proof.
  apply (process_query_answer_is_follow_up env_router_hotel ss_planned "Find hotels" "t1"
           _ _ (match fst (process_query env_router_hotel ss_planned "Find hotels" "t1") with
                | Answer _ _ s _ => s | Failure _ _ _ _ => [] end)).
  vm_compute. reflexivity.
Defined.

Lemma selection_answer_is_follow_up_witness :
  exists st updated final,
    sget "t1" ss_planned = Some st
    /\ handle_user_selection st "A2" = Ok updated
    /\ invoke DEFAULT_RECURSION_LIMIT env_router_hotel updated = Ok final
    /\ "What would you like to do next?"
       = (generate_follow_up_suggestions env_router_hotel final).(fu_message).(msg_content)
    /\ default_suggestions
       = (generate_follow_up_suggestions env_router_hotel final).(fu_suggestions)
    /\ "t1" = "t1"
    /\ sget "t1" (snd (handle_suggestion_selection env_router_hotel ss_planned "A2" "t1"))
       = Some (with_messages final
                 (app final.(messages)
                    [(generate_follow_up_suggestions env_router_hotel final).(fu_message)])).
Proof.
  apply (selection_answer_is_follow_up env_router_hotel ss_planned "A2" "t1"
           _ _ (match fst (handle_suggestion_selection env_router_hotel ss_planned "A2" "t1") with
                | Answer _ _ s _ => s | Failure _ _ _ _ => [] end)).
  vm_compute. reflexivity.
Defined.

Lemma process_query_no_plan_error_witness :
  fst (process_query env_router_hotel ss_offered "Find hotels" "t1")
  = Failure (exc_str AttributeError) (Some api_apology_query) (Some []) "t1"
  /\ sget "t1" (snd (process_query env_router_hotel ss_offered "Find hotels" "t1"))
     = Some (with_messages
               (final_of (invoke PROCESS_QUERY_RECURSION_LIMIT env_router_hotel
                            (fst (query_state ss_offered "Find hotels" "t1"))))
               (app (final_of (invoke PROCESS_QUERY_RECURSION_LIMIT env_router_hotel
                                 (fst (query_state ss_offered "Find hotels" "t1")))).(messages)
                  [(generate_follow_up_suggestions env_router_hotel
                      (final_of (invoke PROCESS_QUERY_RECURSION_LIMIT env_router_hotel
                                   (fst (query_state ss_offered "Find hotels" "t1"))))).(fu_message)])).
Proof.
  apply process_query_no_plan_error; vm_compute; reflexivity.
Defined.

Lemma process_query_failed_run_keeps_query_witness :
  process_query env_replanning ss_planned "Plan a weekend in Porto" "t1"
  = (Failure (exc_str GraphRecursionError) (Some api_apology_query) (Some []) "t1",
     sset "t1" (with_messages st_planned
                  (app st_planned.(messages) [HumanMessage "Plan a weekend in Porto"]))
       ss_planned).
Proof.
  apply process_query_failed_run_keeps_query; vm_compute; reflexivity.
Defined.

(** * The reasoning node's helpers ([agents/reasoning.py]) *)

(** [[step.get("action") for step in plan.get("steps", [])]] *)
Fixpoint step_actions (steps : list pyval) : result (list pyval) :=
  match steps with
  | [] => Ok []
  | s :: r =>
      sd <- as_dict s ;;
      rest <- step_actions r ;;
      Ok (dget_or "action" VNone sd :: rest)
  end.

Definition lines (ls : list string) : string := String.concat nl ls.

Definition criteria_full : string :=
  lines ["Validation criteria for FULL TRIP:";
         "- Is the itinerary created for the requested duration?";
         "- Are flights, hotels, and activities included?";
         "- Are activities sequenced in a logical order?";
         "- Are time allocations reasonable?";
         "- Are all user preferences (budget, interests) addressed?"].

Definition criteria_multi : string :=
  lines ["Validation criteria for MULTI-COMPONENT:";
         "- Are flight options provided?";
         "- Are hotel options provided?";
         "- Do the options match the user's destination and dates?";
         "- Is basic information sufficient for user decision-making?"].

Definition criteria_flights : string :=
  lines ["Validation criteria for FLIGHT SEARCH:";
         "- Are flight options provided for the requested route?";
         "- Do flights match the user's dates (or reasonable defaults)?";
         "- Is there enough information (price, airline, duration) for the user?";
         "- Do NOT require hotels or itinerary - user only asked for flights."].

Definition criteria_hotels : string :=
  lines ["Validation criteria for HOTEL SEARCH:";
         "- Are hotel options provided for the requested destination?";
         "- Is there variety in price/quality options?";
         "- Is there enough information for the user to choose?";
         "- Do NOT require flights or itinerary - user only asked for hotels."].

Definition criteria_activities : string :=
  lines ["Validation criteria for ACTIVITY SEARCH:";
         "- Are activity options provided for the destination?";
         "- Do activities match the user's interests?";
         "- Is there variety in activity types?";
         "- Do NOT require flights/hotels - user only asked for activities."].

Definition criteria_custom : string :=
  lines ["Validation criteria:";
         "- Were all plan steps executed successfully?";
         "- Are results available for the user?";
         "- Does the output match what was requested?"].

(** [x in plan_steps] for a string [x] *)
Definition has_action (a : string) (plan_steps : list pyval) : bool :=
  existsb (fun v => py_eq_str v a) plan_steps.

Definition determine_request_type (plan : pyval) : result (string * string) :=
  if negb (truthy plan) then
    Ok ("Unknown", "Validate that basic results are provided.")
  else
    p <- as_dict plan ;;
    steps <- py_iter (dget_or "steps" (VList []) p) ;;
    plan_steps <- step_actions steps ;;
    let has_itinerary := has_action "compose_itinerary" plan_steps in
    let has_flights := has_action "flight_search" plan_steps in
    let has_hotels := has_action "hotel_search" plan_steps in
    let has_activities := has_action "activity_search" plan_steps in
    if has_itinerary && (4 <=? length plan_steps)%nat then
      Ok ("Full Trip Planning", criteria_full)
    else if has_flights && has_hotels && negb has_itinerary then
      Ok ("Multi-Component Search (Flights + Hotels)", criteria_multi)
    else if has_flights && negb has_hotels && negb has_itinerary then
      Ok ("Flight Search Only", criteria_flights)
    else if has_hotels && negb has_flights && negb has_itinerary then
      Ok ("Hotel Search Only", criteria_hotels)
    else if has_activities && negb has_flights && negb has_hotels then
      Ok ("Activity Search Only", criteria_activities)
    else
      Ok ("Custom Request (" ++ nat_str (length plan_steps) ++ " steps)", criteria_custom).

Definition is_dict (v : pyval) : bool := match v with VDict _ => true | _ => false end.

Lemma step_actions_spec (steps : list pyval) :
  step_actions steps
  = if forallb is_dict steps then Ok (map (field "action") steps)
    else Raise AttributeError.
Proof.
  induction steps as [| s r IH]; [reflexivity |].
  simpl. rewrite IH.
  destruct s; simpl; try reflexivity.
  destruct (forallb is_dict r); reflexivity.
Qed.

Lemma forallb_perm {A : Type} (f : A -> bool) (l l' : list A) :
  Permutation l l' -> forallb f l = forallb f l'.
Proof.
  induction 1; simpl; try congruence.
  - rewrite !andb_assoc, (andb_comm (f y)). reflexivity.
Qed.

Lemma existsb_perm {A : Type} (f : A -> bool) (l l' : list A) :
  Permutation l l' -> existsb f l = existsb f l'.
Proof.
  induction 1; simpl; try congruence.
  - rewrite !orb_assoc, (orb_comm (f y)). reflexivity.
Qed.

(** The request type and its criteria depend only on which actions the plan
    has and how many: reordering the plan's steps does not change them. *)
Theorem determine_request_type_perm (p p' : dict) (steps steps' : list pyval) :
  p <> [] -> p' <> [] ->
  dget_or "steps" (VList []) p = VList steps ->
  dget_or "steps" (VList []) p' = VList steps' ->
  Permutation steps steps' ->
  determine_request_type (VDict p) = determine_request_type (VDict p').
Proof.
  intros Hp Hp' Hs Hs' Hperm.
  unfold determine_request_type.
  destruct p as [| kv p]; [contradiction |]. destruct p' as [| kv' p']; [contradiction |].
  cbn [truthy negb as_dict bind]. rewrite Hs, Hs'. cbn [py_iter bind].
  rewrite !step_actions_spec. rewrite (forallb_perm is_dict _ _ Hperm).
  destruct (forallb is_dict steps'); [| reflexivity]. cbn [bind].
  pose proof (Permutation_map (field "action") Hperm) as Hm.
  unfold has_action. rewrite !(existsb_perm _ _ _ Hm).
  rewrite (Permutation_length Hm). reflexivity.
Qed.

Definition plan_step (id action : string) : pyval :=
  VDict [("id", VStr id); ("action", VStr action); ("executed", VBool true)].

Lemma determine_request_type_perm_witness :
  determine_request_type
    (VDict [("steps", VList [plan_step "s1" "extract_preferences";
                             plan_step "s2" "flight_search";
                             plan_step "s3" "hotel_search"])])
  = determine_request_type
      (VDict [("steps", VList [plan_step "s3" "hotel_search";
                               plan_step "s1" "extract_preferences";
                               plan_step "s2" "flight_search"])]).
Proof.
  apply (determine_request_type_perm _ _
           [plan_step "s1" "extract_preferences"; plan_step "s2" "flight_search";
            plan_step "s3" "hotel_search"]
           [plan_step "s3" "hotel_search"; plan_step "s1" "extract_preferences";
            plan_step "s2" "flight_search"]);
    try discriminate; try reflexivity.
  apply perm_trans with [plan_step "s1" "extract_preferences";
                         plan_step "s3" "hotel_search"; plan_step "s2" "flight_search"].
  - apply perm_skip, perm_swap.
  - apply perm_swap.
Defined.

(** The no-op loop [for i in range(len(activities) - 1): activities[i];
    activities[i + 1]], run when there are at least two activities.  The
    indices are in range, so indexing a list or a string succeeds; on a dict
    (whose keys are strings here) [activities[0]] raises [KeyError] for the
    integer key [0]. *)
Definition index_pairs (activities : pyval) (n : nat) : result unit :=
  if (2 <=? n)%nat then
    match activities with
    | VDict _ => Raise (KeyError "0")
    | _ => Ok tt
    end
  else Ok tt.

Definition too_many_issue (day_num : pyval) (n : nat) : string :=
  "Day " ++ py_str day_num ++ ": Too many activities (" ++ nat_str n
  ++ "), may be unrealistic".

Fixpoint check_days (days : list pyval) : result (list string) :=
  match days with
  | [] => Ok []
  | day :: r =>
      d <- as_dict day ;;
      let day_num := dget_or "day_number" VNone d in
      let activities := dget_or "activities" (VList []) d in
      n <- py_len activities ;;
      _ <- index_pairs activities n ;;
      rest <- check_days r ;;
      Ok (app (if (8 <? n)%nat then [too_many_issue day_num n] else []) rest)
  end.

Definition validate_itinerary_logic (itinerary : pyval) : result (list string) :=
  if negb (truthy itinerary) then Ok ["No itinerary provided"]
  else
    it <- as_dict itinerary ;;
    let days := dget_or "days" (VList []) it in
    if negb (truthy days) then Ok ["No days in itinerary"]
    else
      ds <- py_iter days ;;
      check_days ds.

(** [len(day.get("activities", []))], [0] where it is not defined *)
Definition activity_count (day : pyval) : nat :=
  match day with
  | VDict d => match py_len (dget_or "activities" (VList []) d) with
               | Ok n => n
               | Raise _ => 0
               end
  | _ => 0
  end.

Lemma check_days_issues (ds : list pyval) (issues : list string) :
  check_days ds = Ok issues ->
  issues = flat_map (fun day =>
             match day with
             | VDict d => if (8 <? activity_count day)%nat
                          then [too_many_issue (dget_or "day_number" VNone d)
                                               (activity_count day)]
                          else []
             | _ => []
             end) ds.
Proof.
  revert issues. induction ds as [| day r IH]; simpl; intros issues H.
  - injection H as <-. reflexivity.
  - destruct day as [| | | | | d]; cbn [as_dict bind] in H; try discriminate H.
    destruct (py_len (dget_or "activities" (VList []) d)) as [n |] eqn:Hn;
      cbn [bind] in H; [| discriminate H].
    destruct (index_pairs _ n); cbn [bind] in H; [| discriminate H].
    destruct (check_days r) as [rest |]; cbn [bind] in H; [| discriminate H].
    injection H as <-. unfold activity_count. rewrite Hn.
    rewrite (IH rest eq_refl). reflexivity.
Qed.

Lemma py_iter_nonempty_truthy (v : pyval) (x : pyval) (xs : list pyval) :
  py_iter v = Ok (x :: xs) -> truthy v = true.
Proof.
  destruct v as [| | | s | l | d]; simpl; try discriminate.
  - destruct s; simpl; [discriminate | reflexivity].
  - destruct l; [discriminate | reflexivity].
  - destruct d; [discriminate | reflexivity].
Qed.

(** When an itinerary with days is validated without error, it reports one
    issue for each day with more than eight activities, naming that day and
    its count, and nothing else: no other check produces an issue. *)
Theorem validate_itinerary_logic_issues (it : dict) (ds : list pyval) (issues : list string) :
  py_iter (dget_or "days" (VList []) it) = Ok ds ->
  ds <> [] ->
  validate_itinerary_logic (VDict it) = Ok issues ->
  issues = flat_map (fun day =>
             match day with
             | VDict d => if (8 <? activity_count day)%nat
                          then [too_many_issue (dget_or "day_number" VNone d)
                                               (activity_count day)]
                          else []
             | _ => []
             end) ds
  /\ length issues = length (filter (fun day => 8 <? activity_count day)%nat ds).
Proof.
  intros Hds Hne H.
  destruct ds as [| x xs]; [contradiction |].
  unfold validate_itinerary_logic in H.
  destruct it as [| kv it']; [simpl in Hds; discriminate Hds |].
  cbn [truthy negb as_dict bind] in H.
  rewrite (py_iter_nonempty_truthy _ _ _ Hds) in H. cbn [negb] in H.
  rewrite Hds in H. cbn [bind] in H.
  pose proof (check_days_issues _ _ H) as Hi.
  split; [exact Hi |]. subst issues. clear H Hds Hne.
  induction (x :: xs) as [| day r IH]; [reflexivity |].
  simpl. rewrite length_app, IH.
  destruct day; simpl; try reflexivity.
  match goal with |- context [(8 <? ?c)%nat] => destruct (8 <? c)%nat end; reflexivity.
Qed.

Definition day_with (n : Z) (k : nat) : pyval :=
  VDict [("day_number", VInt n);
         ("activities", VList (repeat (VDict [("name", VStr "Museum visit")]) k))].

Definition busy_itinerary : dict :=
  [("destination", VStr "Lisbon");
   ("days", VList [day_with 1 3; day_with 2 9; day_with 3 12])].

Lemma validate_itinerary_logic_issues_witness :
  validate_itinerary_logic (VDict busy_itinerary)
  = Ok ["Day 2: Too many activities (9), may be unrealistic";
        "Day 3: Too many activities (12), may be unrealistic"]
  /\ length ["Day 2: Too many activities (9), may be unrealistic";
             "Day 3: Too many activities (12), may be unrealistic"]
     = length (filter (fun day => 8 <? activity_count day)%nat
                 [day_with 1 3; day_with 2 9; day_with 3 12]).
Proof.
  assert (H : validate_itinerary_logic (VDict busy_itinerary)
              = Ok ["Day 2: Too many activities (9), may be unrealistic";
                    "Day 3: Too many activities (12), may be unrealistic"])
    by (vm_compute; reflexivity).
  split; [exact H |].
  exact (proj2 (validate_itinerary_logic_issues busy_itinerary
                  [day_with 1 3; day_with 2 9; day_with 3 12] _
                  eq_refl ltac:(discriminate) H)).
Defined.

(** * Researching destination candidates ([core/destination_planner.py],
    [research_destinations]) *)

(** [v[:n]] *)
Definition py_slice_first (n : nat) (v : pyval) : result pyval :=
  match v with
  | VList l => Ok (VList (firstn n l))
  | VStr s => Ok (VStr (substring 0 n s))
  | _ => Raise TypeError
  end.

Definition ok_opt {A : Type} (r : result A) : option A :=
  match r with Ok a => Some a | Raise _ => None end.

Definition obind {A B : Type} (o : option A) (f : A -> option B) : option B :=
  match o with Some a => f a | None => None end.

Notation "x <-? o ;; k" := (obind o (fun x => k))
  (at level 61, o at next level, right associativity).

Fixpoint map_opt {A B : Type} (f : A -> option B) (l : list A) : option (list B) :=
  match l with
  | [] => Some []
  | x :: r => y <-? f x ;; ys <-? map_opt f r ;; Some (y :: ys)
  end.

(** [v[0]]; [None] when it raises ([IndexError] on an empty sequence,
    [KeyError] on a dict with string keys, [TypeError] otherwise). *)
Definition py_index0 (v : pyval) : option pyval :=
  match v with
  | VList (x :: _) => Some x
  | VStr (String c _) => Some (VStr (String c EmptyString))
  | _ => None
  end.

Section Research.

(** [config.get("api_keys", {}).get("tavily")] *)
Variable tavily_key : pyval.
(** [TavilyClient(api_key=tavily_key)]: whether constructing the client raises *)
Variable tavily_client : result unit.
(** [tavily_client.search(query=..., ...)] *)
Variable tavily_search : string -> result pyval.

(** The body of the inner [try]; [None] when it raises (the handler only logs
    the exception). *)
Definition research_block (query : string) : option pyval :=
  sr_v <-? ok_opt (tavily_search query) ;;
  sr <-? ok_opt (as_dict sr_v) ;;
  let answer := dget_or "answer" (VStr "") sr in
  first2 <-? ok_opt (py_slice_first 2 (dget_or "results" (VList []) sr)) ;;
  rs <-? ok_opt (py_iter first2) ;;
  urls <-? map_opt (fun r => d <-? ok_opt (as_dict r) ;; Some (dget_or "url" VNone d)) rs ;;
  first <-? py_index0 (dget_or "results" (VList [VDict []]) sr) ;;
  fd <-? ok_opt (as_dict first) ;;
  content <-? ok_opt (py_slice_first 300 (dget_or "content" (VStr "") fd)) ;;
  Some (VDict [("answer", answer); ("sources", VList urls); ("recent_info", content)]).

(** The loop over the candidates; [acc] is [enriched], reversed.  The
    assignment [candidate["research"] = ...] mutates the candidate, which is
    also an element of [candidates]: when the outer [except] returns
    [candidates], the candidates processed so far carry their research. *)
Fixpoint research_loop (requirements : pyval) (cands acc : list pyval) : list pyval :=
  match cands with
  | [] => rev acc
  | c :: r =>
      match as_dict c with
      | Raise _ => app (rev acc) cands
      | Ok cd =>
          let destination := dget_or "destination" VNone cd in
          let query0 := py_str destination ++ " family travel weather attractions things to do" in
          match (rq <- as_dict requirements ;;
                 tp <- as_dict (dget_or "travel_party" (VDict []) rq) ;;
                 Ok (truthy (dget_or "children" VNone tp))) with
          | Raise _ => app (rev acc) cands
          | Ok kids =>
              let query := if kids then query0 ++ " kid-friendly activities" else query0 in
              match research_block query with
              | Some research =>
                  research_loop requirements r (VDict (dset "research" research cd) :: acc)
              | None => research_loop requirements r (c :: acc)
              end
          end
      end
  end.

Definition research_destinations (candidates : list pyval) (requirements : pyval)
  : list pyval :=
  if negb (truthy tavily_key) then candidates
  else
    match tavily_client with
    | Raise _ => candidates
    | Ok _ => research_loop requirements candidates []
    end.

End Research.

(** An entry of the researched list: the candidate itself, or the candidate
    dict with a [research] key set. *)
Definition researched (c r : pyval) : Prop :=
  r = c \/ exists cd x, c = VDict cd /\ r = VDict (dset "research" x cd).

Lemma research_loop_forall2 (tavily_search : string -> result pyval) (reqs : pyval) :
  forall cands acc done_,
  Forall2 researched (rev done_) (rev acc) ->
  Forall2 researched (app (rev done_) cands) (research_loop tavily_search reqs cands acc).
Proof.
  induction cands as [| c r IH]; intros acc done_ Hacc; simpl.
  - rewrite app_nil_r. exact Hacc.
  - assert (Hstop : Forall2 researched (app (rev done_) (c :: r)) (app (rev acc) (c :: r))).
    { apply Forall2_app; [exact Hacc |].
      apply Forall2_cons; [left; reflexivity |].
      clear. induction r; constructor; [left; reflexivity | assumption]. }
    destruct c as [| | | | | cd]; cbn [as_dict]; try exact Hstop.
    destruct (rq <- as_dict reqs ;; _) as [kids |]; [| exact Hstop].
    replace (app (rev done_) (VDict cd :: r)) with (app (rev (VDict cd :: done_)) r)
      by (simpl; rewrite <- app_assoc; reflexivity).
    destruct (research_block tavily_search _) as [x |]; apply IH; simpl;
      (apply Forall2_app; [exact Hacc | apply Forall2_cons; [| apply Forall2_nil]]).
    + right. exists cd, x. split; reflexivity.
    + left. reflexivity.
Qed.

(** Researching never drops, reorders or replaces a candidate, whatever the
    searches and the requirements do: each entry of the result is the
    candidate at the same position, possibly with a [research] key added.
    In particular every candidate keeps its [destination]. *)
Theorem research_destinations_keeps_candidates (tavily_key : pyval)
  (tavily_client : result unit) (tavily_search : string -> result pyval)
  (candidates : list pyval) (requirements : pyval) :
  Forall2 researched candidates
    (research_destinations tavily_key tavily_client tavily_search candidates requirements)
  /\ map (field "destination")
       (research_destinations tavily_key tavily_client tavily_search candidates requirements)
     = map (field "destination") candidates.
Proof.
  assert (Hrefl : forall l, Forall2 researched l l).
  { induction l; constructor; [left; reflexivity | assumption]. }
  assert (H : Forall2 researched candidates
                (research_destinations tavily_key tavily_client tavily_search
                   candidates requirements)).
  { unfold research_destinations.
    destruct (negb (truthy tavily_key)); [apply Hrefl |].
    destruct tavily_client; [| apply Hrefl].
    exact (research_loop_forall2 tavily_search requirements candidates [] [] (Forall2_nil _)). }
  split; [exact H |].
  induction H as [| c r cs rs Hcr _ IH]; [reflexivity |].
  simpl. rewrite IH. f_equal.
  destruct Hcr as [-> | (cd & x & -> & ->)]; [reflexivity |].
  unfold field, dget_or. rewrite dget_dset_other by discriminate. reflexivity.
Qed.

(** * The destination planner node ([core/destination_planner.py],
    [preplanner_agent_node], [extract_travel_requirements]) *)

(** The requirements [extract_travel_requirements] returns when the
    extraction raises. *)
Definition default_requirements : dict :=
  [("duration_days", VInt 7); ("region_preference", VNone);
   ("interests", VList []); ("constraints", VDict [])].

Section Preplanner.

Variable e : env.
(** [llm.invoke(extraction_prompt)] then [json.loads(...)] *)
Variable requirements_reply : state -> result pyval.
(** [generate_destination_recommendations(requirements, state)] *)
Variable recommend : pyval -> state -> result pyval.
(** [format_preplanner_response(recommendations, requirements)] *)
Variable format_response : pyval -> pyval -> result string.

(** [get_config()] and [ChatOpenAI(...)] are outside the [try]. *)
Definition extract_travel_requirements (st : state) : result pyval :=
  _ <- setup e ;;
  Ok (try_except (requirements_reply st) (fun _ => VDict default_requirements)).

Definition preplanner_try (st : state) : result delta :=
  requirements <- extract_travel_requirements st ;;
  recommendations <- recommend requirements st ;;
  response <- format_response recommendations requirements ;;
  Ok {| d_messages := Some (app st.(messages) [AIMessage response]);
        d_plan := None; d_itinerary := None; d_prefs := None; d_next_agent := None;
        d_tool_results := Some (dset "destination_recommendations" recommendations
                                  st.(tool_results));
        d_metadata := Some (dset "requirements" requirements
                              (dset "preplanner_phase" (VBool true) st.(metadata))) |}.

Definition preplanner_agent_node (st : state) : result delta :=
  Ok (try_except (preplanner_try st)
        (fun _ => {| d_messages := Some (app st.(messages)
                       [AIMessage ("Let me help you find the perfect destination. "
                                   ++ "What are you looking for in your trip?")]);
                     d_plan := None; d_itinerary := None; d_prefs := None;
                     d_next_agent := None; d_tool_results := None;
                     d_metadata := None |})).

End Preplanner.

Lemma destination_selection_keeps_requirements (st st2 : state) (sel : pyval) (reqs : dict) :
  handle_destination_selection st sel = Ok st2 ->
  dget_or "requirements" (VDict []) st.(metadata) = VDict reqs ->
  NoDup (map fst reqs) ->
  st2 = st
  \/ ((forall k v, dget k reqs = Some v -> dget k st2.(user_preferences) = Some v)
      /\ destination_selected st2.(metadata) = true).
Proof.
  intros H Hreq Hnd.
  unfold handle_destination_selection in H. step_bind H.
  lazymatch type of E with _ = Ok ?p => destruct p as [st3 b] end.
  cbn [fst] in H. injection H as ->.
  unfold handle_destination_selection_obj in E.
  do 3 step_bind E.
  destruct (truthy _); [| left; injection E as <- _; reflexivity].
  do 3 step_bind E.
  rewrite Hreq in E. cbn [bind] in E. injection E as <- _.
  right. cbn [user_preferences metadata GraphState]. split.
  - intros k v Hk. rewrite dget_spread by exact Hnd. rewrite Hk. reflexivity.
  - unfold destination_selected, dget_or.
    rewrite dget_dset_other by discriminate. rewrite dget_dset_same. reflexivity.
Qed.

(** When the requirement extraction fails, the destination planner still
    completes with the fixed default requirements, records them in the
    metadata, and a later destination selection puts them into the user's
    preferences: a seven-day trip, with no interests. *)
Theorem failed_extraction_defaults_reach_preferences (e : env)
  (requirements_reply : state -> result pyval) (recommend : pyval -> state -> result pyval)
  (format_response : pyval -> pyval -> result string)
  (st : state) (ex : exc) (recs : pyval) (resp : string) :
  setup e = Ok tt ->
  requirements_reply st = Raise ex ->
  recommend (VDict default_requirements) st = Ok recs ->
  format_response recs (VDict default_requirements) = Ok resp ->
  exists d,
    preplanner_agent_node e requirements_reply recommend format_response st = Ok d
    /\ dget "requirements" (merge st d).(metadata) = Some (VDict default_requirements)
    /\ forall sel st2,
         handle_destination_selection (merge st d) sel = Ok st2 ->
         st2 = merge st d
         \/ (dget "duration_days" st2.(user_preferences) = Some (VInt 7)
             /\ dget "interests" st2.(user_preferences) = Some (VList [])
             /\ destination_selected st2.(metadata) = true).
Proof.
  intros Hsetup Hreply Hrec Hfmt.
  eexists. split.
  { unfold preplanner_agent_node, preplanner_try, extract_travel_requirements.
    rewrite Hsetup. cbn [bind]. rewrite Hreply. cbn [try_except].
    rewrite Hrec. cbn [bind]. rewrite Hfmt. reflexivity. }
  assert (Hmd : dget "requirements"
                  (dset "requirements" (VDict default_requirements)
                     (dset "preplanner_phase" (VBool true) st.(metadata)))
                = Some (VDict default_requirements)) by apply dget_dset_same.
  split; [exact Hmd |].
  intros sel st2 Hsel.
  assert (Hreq : dget_or "requirements" (VDict [])
                   (merge st {| d_messages := Some (app st.(messages) [AIMessage resp]);
                                d_plan := None; d_itinerary := None; d_prefs := None;
                                d_next_agent := None;
                                d_tool_results := Some (dset "destination_recommendations" recs
                                                          st.(tool_results));
                                d_metadata := Some (dset "requirements"
                                                      (VDict default_requirements)
                                                      (dset "preplanner_phase" (VBool true)
                                                         st.(metadata))) |}).(metadata)
                 = VDict default_requirements).
  { unfold dget_or. simpl. rewrite Hmd. reflexivity. }
  destruct (destination_selection_keeps_requirements _ _ _ _ Hsel Hreq
              ltac:(repeat constructor; simpl; intuition discriminate))
    as [-> | [Hk Hds]]; [left; reflexivity | right].
  split; [apply Hk; reflexivity |]. split; [apply Hk; reflexivity | exact Hds].
Qed.

Lemma failed_extraction_defaults_reach_preferences_witness :
  exists d,
    preplanner_agent_node env_router_hotel (fun _ => Raise JSONDecodeError)
      (fun _ _ => Ok (VDict [("recommendations", VList [recommendation "Lisbon" "Portugal"])]))
      (fun _ _ => Ok "I recommend Lisbon.") st_query = Ok d
    /\ dget "requirements" (merge st_query d).(metadata) = Some (VDict default_requirements)
    /\ forall sel st2,
         handle_destination_selection (merge st_query d) sel = Ok st2 ->
         st2 = merge st_query d
         \/ (dget "duration_days" st2.(user_preferences) = Some (VInt 7)
             /\ dget "interests" st2.(user_preferences) = Some (VList [])
             /\ destination_selected st2.(metadata) = true).
Proof.
  apply (failed_extraction_defaults_reach_preferences env_router_hotel
           (fun _ => Raise JSONDecodeError)
           (fun _ _ => Ok (VDict [("recommendations", VList [recommendation "Lisbon" "Portugal"])]))
           (fun _ _ => Ok "I recommend Lisbon.") st_query JSONDecodeError
           (VDict [("recommendations", VList [recommendation "Lisbon" "Portugal"])])
           "I recommend Lisbon."); reflexivity.
Defined.
